(** * http-service: the request/response pipeline of [HttpService]

    A shallow embedding of [http-service.js].  The file carries two drafts
    of the class:

    - the first (lines 1-243) reports success through a four-argument
      callback [callback(null, body, type, headers)] and failure through
      [callback(err)];
    - the second (lines 244-514) always hands the callback one response
      record [{status, headers, type, body}] next to the error slot.

    The helpers [headerValue], [removeParams], [appendQuery], the
    constructor and the sending half of [request] are the same in both
    drafts (up to the class of the thrown error); the ['end'] handlers
    differ and are embedded separately in [FourArg] and [OutcomeObj].

    Platform functions ([JSON.parse], [JSON.stringify],
    [querystring.stringify], [Buffer] conversions, [url.parse], the
    [HttpStatus] classifier) are not part of the repository; they are the
    fields of the [Platform] class and the development is parametric in
    them.  [Node] is one concrete instance, used to run the examples. *)

From Stdlib Require Import ZArith String Ascii List Lia Bool DecimalString.
From Stdlib Require Import Strings.Byte.
From stdpp Require Import base list.
Import ListNotations.
Open Scope string_scope.
Open Scope Z_scope.

(** ** JavaScript values *)

(** The values that reach the pipeline: request data, header values and
    parsed JSON.  Integral numbers only; an object keeps its keys in
    insertion order, as [Object.keys] enumerates them. *)
#[warnings="-register-all"]
Inductive value : Type :=
| VUndefined
| VNull
| VBool (b : bool)
| VNum (n : Z)
| VStr (s : string)
| VBuf (bytes : list byte)
| VArr (items : list value)
| VObj (fields : list (string * value)).

(** A plain object, e.g. a headers mapping. *)
Abbreviation obj := (list (string * value)).

(** The error objects the code creates or catches. *)
Inductive error : Type :=
| Error (msg : string)
| TypeError (msg : string)
| ReferenceError (msg : string)
| SyntaxError (msg : string)
| URIError (msg : string)
| HttpError (code : Z) (msg : string)
| TransportError (cause : string).

Definition message (e : error) : string :=
  match e with
  | Error m | TypeError m | ReferenceError m | SyntaxError m
  | URIError m | HttpError _ m | TransportError m => m
  end.

(** A computation that returns or throws. *)
Inductive result (A : Type) : Type :=
| Ok (a : A)
| Throw (e : error).
Arguments Ok {A} a.
Arguments Throw {A} e.

(** ** String primitives *)

Definition toLowerChar (c : ascii) : ascii :=
  let n := nat_of_ascii c in
  if ((65 <=? n) && (n <=? 90))%nat then ascii_of_nat (n + 32) else c.

Definition toUpperChar (c : ascii) : ascii :=
  let n := nat_of_ascii c in
  if ((97 <=? n) && (n <=? 122))%nat then ascii_of_nat (n - 32) else c.

Fixpoint map_string (f : ascii -> ascii) (s : string) : string :=
  match s with
  | EmptyString => EmptyString
  | String c s' => String (f c) (map_string f s')
  end.

(** [String.prototype.toLowerCase] / [toUpperCase] on header names and
    methods, which are ASCII tokens. *)
Definition toLowerCase : string -> string := map_string toLowerChar.
Definition toUpperCase : string -> string := map_string toUpperChar.

(** [s.indexOf(c)] for a one-character needle: the position of the first
    occurrence, or -1. *)
Fixpoint indexOf (s : string) (c : ascii) : Z :=
  match s with
  | EmptyString => -1
  | String a s' =>
      if Ascii.eqb a c then 0
      else let r := indexOf s' c in if r <? 0 then -1 else r + 1
  end.

(** [s.substring(0, n)] for [0 <= n]. *)
Definition substring0 (s : string) (n : Z) : string :=
  String.substring 0 (Z.to_nat n) s.

(** [s.substring(n)]. *)
Fixpoint drop_string (n : nat) (s : string) : string :=
  match n, s with
  | S n', String _ s' => drop_string n' s'
  | _, _ => s
  end.

(** Whether [p] is a prefix of [s]. *)
Fixpoint isPrefix (p s : string) : bool :=
  match p, s with
  | EmptyString, _ => true
  | String a p', String b s' => Ascii.eqb a b && isPrefix p' s'
  | String _ _, EmptyString => false
  end.

Definition startsWith (s p : string) : bool := isPrefix p s.

Fixpoint rev_string (s : string) : string :=
  match s with
  | EmptyString => EmptyString
  | String c s' => rev_string s' ++ String c EmptyString
  end.

Definition endsWith (s p : string) : bool :=
  isPrefix (rev_string p) (rev_string s).

(** Truthiness of a string: non-empty. *)
Definition truthy_string (s : string) : bool :=
  match s with EmptyString => false | _ => true end.

(** Decimal rendering of an integral number, as template literals and
    [+] do. *)
Definition string_of_Z (n : Z) : string := NilZero.string_of_int (Z.to_int n).

(** ** Constants (lines 24-28 / 281-285) *)

Definition JSON_MEDIA_TYPE : string := "application/json".
Definition FORM_MEDIA_TYPE : string := "application/x-www-form-urlencoded".
Definition CONTENT_TYPE_HEADER : string := "content-type".
Definition CONTENT_LENGTH_HEADER : string := "content-length".

(** ** Private helpers *)

(** [headerValue(headers, name)] (lines 52-63 / 309-320): the value of the
    first key, in key order, whose lower-cased spelling is [name]; [None]
    is the [null] returned when no key matches.  The header mappings are
    objects here, so the [util.isObject] test holds. *)
Fixpoint headerValue {V : Type} (headers : list (string * V)) (name : string)
  : option V :=
  match headers with
  | [] => None
  | (key, v) :: rest =>
      if String.eqb (toLowerCase key) name then Some v
      else headerValue rest name
  end.

(** [removeParams(value)] (lines 65-73 / 322-330), on the value of a
    response header: [null] or a string. *)
Definition removeParams (value : option string) : option string :=
  match value with
  | Some s =>
      if truthy_string s then
        let semi := indexOf s ";" in
        if semi >? 0 then Some (substring0 s semi) else value
      else value
  | None => value
  end.

(** What the specification says of [removeParams]: everything from the
    first [;] onward is cut. *)
Fixpoint strip_from_semicolon (s : string) : string :=
  match s with
  | EmptyString => EmptyString
  | String c s' =>
      if Ascii.eqb c ";" then EmptyString else String c (strip_from_semicolon s')
  end.

(** ** Operations on values *)

(** [typeof v]. *)
Definition typeof (v : value) : string :=
  match v with
  | VUndefined => "undefined"
  | VBool _ => "boolean"
  | VNum _ => "number"
  | VStr _ => "string"
  | VNull | VBuf _ | VArr _ | VObj _ => "object"
  end.

(** [util.isObject(v)]: [v !== null && typeof v === 'object']. *)
Definition isObject (v : value) : bool :=
  match v with
  | VBuf _ | VArr _ | VObj _ => true
  | _ => false
  end.

(** [util.isString(v)]. *)
Definition isString (v : value) : bool :=
  match v with VStr _ => true | _ => false end.

(** [Buffer.isBuffer(v)]. *)
Definition isBuffer (v : value) : bool :=
  match v with VBuf _ => true | _ => false end.

(** [v !== null]. *)
Definition notNull (v : value) : bool :=
  match v with VNull => false | _ => true end.

(** Truthiness, as [if (v)], [v && ...] and [!v] test it. *)
Definition truthy (v : value) : bool :=
  match v with
  | VUndefined | VNull => false
  | VBool b => b
  | VNum n => negb (n =? 0)
  | VStr s => truthy_string s
  | VBuf _ | VArr _ | VObj _ => true
  end.

Fixpoint lookup_field (fields : list (string * value)) (key : string)
  : value :=
  match fields with
  | [] => VUndefined
  | (k, v) :: rest => if String.eqb k key then v else lookup_field rest key
  end.

(** Property read [v.key] / [v[key]] for the keys the code reads
    ([error_description], [error], [message], [odata.error], [value]):
    it throws on [null] and [undefined], finds own fields of an object and
    is [undefined] on every other value. *)
Definition getProp (v : value) (key : string) : result value :=
  match v with
  | VUndefined =>
      Throw (TypeError ("Cannot read properties of undefined (reading '"
                          ++ key ++ "')"))
  | VNull =>
      Throw (TypeError ("Cannot read properties of null (reading '"
                          ++ key ++ "')"))
  | VObj fields => Ok (lookup_field fields key)
  | _ => Ok VUndefined
  end.

(** [headers[key] = v] on an object: an existing key keeps its place, a
    new key goes last. *)
Fixpoint set_field (o : obj) (key : string) (v : value) : obj :=
  match o with
  | [] => [(key, v)]
  | (k, w) :: rest =>
      if String.eqb k key then (k, v) :: rest
      else (k, w) :: set_field rest key v
  end.

(** [s.split(/\r?\n/)[0]]: the text before the first line feed, without
    the carriage return that may precede it. *)
Fixpoint first_line (s : string) : string :=
  match s with
  | EmptyString => EmptyString
  | String c s' =>
      if Ascii.eqb c "010" then EmptyString
      else if Ascii.eqb c "013" && isPrefix (String "010" EmptyString) s'
           then EmptyString
           else String c (first_line s')
  end.

(** ** The platform *)

(** The result of [url.parse] that the constructor reads.  For a URL with
    a slashed scheme, [hostname] and [pathname] are strings ([pathname] is
    ["/"] for an empty path); [port] is [null] or the digits after the
    last colon of the host. *)
Module Url.
Record t : Type := mk {
  protocol : option string;
  hostname : string;
  port     : option string;
  pathname : string
}.
End Url.

(** Node's library and the [@be/http-status] classifier, as the code uses
    them. *)
Class Platform : Type := {
  (** [JSON.parse(text)]; [inl m] is a thrown [SyntaxError] with message
      [m]. *)
  JSON_parse : string -> string + value;
  (** [JSON.stringify(v)] on an object. *)
  JSON_stringify : value -> string;
  (** [querystring.stringify(v)] on an object. *)
  querystring_stringify : value -> string;
  (** [buf.toString()]: UTF-8 decoding. *)
  Buffer_toString : list byte -> string;
  (** [Buffer.byteLength(s)]: length of the UTF-8 encoding. *)
  Buffer_byteLength : string -> Z;
  (** [url.parse(uri)]. *)
  url_parse : string -> Url.t;
  (** [new HttpStatus(code).noContent]. *)
  status_noContent : Z -> bool;
  (** [new HttpStatus(code).isError()]. *)
  status_isError : Z -> bool;
  (** [new HttpStatus(code).error(message)]: the error object that the
      status helper makes of a message. *)
  status_error : Z -> string -> error
}.

(** ** Notation for computations that may throw *)

Definition rbind {A B : Type} (m : result A) (k : A -> result B) : result B :=
  match m with
  | Ok a => k a
  | Throw e => Throw e
  end.

Notation "'let?' x ':=' m 'in' k" := (rbind m (fun x => k))
  (at level 10, x name, m at level 100, k at level 200).

(** ** Numbers from text *)

Definition isWhiteSpace (c : ascii) : bool :=
  let n := nat_of_ascii c in
  ((n =? 32) || ((9 <=? n) && (n <=? 13)))%nat.

Fixpoint trimStart (s : string) : string :=
  match s with
  | String c s' => if isWhiteSpace c then trimStart s' else s
  | EmptyString => s
  end.

(** The value of [c] as a digit in [radix] (10 or 16). *)
Definition digit (radix : Z) (c : ascii) : option Z :=
  let n := Z.of_nat (nat_of_ascii c) in
  if (48 <=? n) && (n <=? 57) then Some (n - 48)
  else if (radix =? 16) && (97 <=? n) && (n <=? 102) then Some (n - 87)
  else if (radix =? 16) && (65 <=? n) && (n <=? 70) then Some (n - 55)
  else None.

(** The longest prefix of digits, read in [radix]; [acc] is [None] until a
    digit has been seen. *)
Fixpoint digits (radix : Z) (s : string) (acc : option Z) : option Z :=
  match s with
  | EmptyString => acc
  | String c s' =>
      match digit radix c with
      | Some d => digits radix s' (Some (radix * default 0 acc + d))
      | None => acc
      end
  end.

(** The double nearest to a natural number, ties to even: a number of at
    most 53 bits is kept, a longer one is rounded to 53 significant bits.
    (Overflow to [Infinity], beyond about 1.8e308, is not modelled.) *)
Definition toDouble (n : Z) : Z :=
  let bits := Z.log2 n + 1 in
  if bits <=? 53 then n
  else
    let shift := bits - 53 in
    let q := Z.shiftr n shift in
    let r := n - Z.shiftl q shift in
    let half := Z.shiftl 1 (shift - 1) in
    let q := if (half <? r) || ((r =? half) && Z.odd q) then q + 1 else q in
    Z.shiftl q shift.

(** [parseInt(v)] on [null] or a string; [None] is [NaN].  [null] reads as
    the text ["null"], which has no digit.  White space is skipped, then a
    sign, then a [0x] prefix; the digits that follow are read and the
    number they denote is rounded to a double.  (Past 20 significant
    decimal digits the language lets an implementation approximate; the
    statements below stay under 2^53.) *)
Definition parseInt (v : option string) : option Z :=
  match v with
  | None => None
  | Some s =>
      let s := trimStart s in
      let neg := isPrefix "-" s in
      let s := if neg || isPrefix "+" s then drop_string 1 s else s in
      let hex := isPrefix "0x" s || isPrefix "0X" s in
      let s := if hex then drop_string 2 s else s in
      match digits (if hex then 16 else 10) s None with
      | Some n => Some (if neg then - toDouble n else toDouble n)
      | None => None
      end
  end.

(** ** The client *)

(** The fields of an [HttpService] instance. *)
Record HttpService : Type := mkHttpService {
  protocol : string;
  hostname : string;
  pathname : string;
  port     : Z;
  options  : obj
}.

Section Client.
Context `{P : Platform}.

(** String conversion of a value, as [+] and template literals do. *)
Fixpoint to_string (v : value) : string :=
  match v with
  | VUndefined => "undefined"
  | VNull => "null"
  | VBool true => "true"
  | VBool false => "false"
  | VNum n => string_of_Z n
  | VStr s => s
  | VBuf b => Buffer_toString b
  | VArr items =>
      String.concat ","
        (List.map (fun x => match x with
                            | VUndefined | VNull => EmptyString
                            | _ => to_string x
                            end) items)
  | VObj _ => "[object Object]"
  end.

(** [new HttpService(uri, options)] (lines 84-97 / 378-391).  After
    [parseInt], [!this.port] holds for [NaN] and for 0. *)
Definition constructor (uri : string) (opts : option obj)
  : result HttpService :=
  let parsed := url_parse uri in
  let valid :=
    match Url.protocol parsed with
    | Some p => String.eqb p "http:" || String.eqb p "https:"
    | None => false
    end in
  if negb valid then
    Throw (URIError ("'" ++ uri ++ "' invalid protocol (expected http or https)"))
  else
    let protocol := default EmptyString (Url.protocol parsed) in
    let preset := if String.eqb protocol "http:" then 80 else 443 in
    Ok {| protocol := protocol;
          hostname := Url.hostname parsed;
          pathname := Url.pathname parsed;
          port := match parseInt (Url.port parsed) with
                  | Some n => if n =? 0 then preset else n
                  | None => preset
                  end;
          options := default [] opts |}.

(** [appendQuery(path, query)] (lines 41-50 / 298-307). *)
Definition appendQuery (path : string) (query : value) : string :=
  let query :=
    if isObject query then VStr (querystring_stringify query) else query in
  match query with
  | VStr q =>
      let sep := if indexOf path "?" <? 0 then "?" else "&" in
      path ++ sep ++ q
  | _ => path
  end.
End Client.

(** ** Shared objects and the transport *)

(** [request] mutates the headers object it is given and hands the same
    object to the transport, so header objects live in a store and are
    passed by reference. *)
Abbreviation loc := nat.

(** The options object built for [client.request] (lines 163-171 /
    457-465): the instance's [options], overridden by the six
    request-specific fields.  [headers] is a reference. *)
Module RequestOptions.
Record t : Type := mk {
  base     : obj;
  method   : string;
  protocol : string;
  host     : string;
  port     : Z;
  path     : string;
  headers  : loc
}.
End RequestOptions.

(** What the transport is asked to do, in order.  [ClientRequest] is the
    call [client.request(options, ...)]; it carries the content that the
    headers object has at that moment, which is what the transport reads. *)
Inductive event : Type :=
| ClientRequest (opts : RequestOptions.t) (headers_sent : obj)
| Write (data : value)
| End.

Record state : Type := mkState {
  heap  : list obj;
  trace : list event
}.

(** Computations over the store and the transport trace that may throw;
    the state at a throw is kept. *)
Definition M (A : Type) : Type := state -> result A * state.

#[global] Instance M_ret : MRet M := fun A a st => (Ok a, st).
#[global] Instance M_bind : MBind M := fun A B k m st =>
  match m st with
  | (Ok a, st') => k a st'
  | (Throw e, st') => (Throw e, st')
  end.

Definition throw {A : Type} (e : error) : M A := fun st => (Throw e, st).

(** [{}]-style allocation of a fresh object. *)
Definition alloc (o : obj) : M loc := fun st =>
  (Ok (length (heap st)),
   {| heap := heap st ++ [o]; trace := trace st |}).

Definition read (l : loc) : M obj := fun st =>
  (Ok (default [] (heap st !! l)), st).

(** [l[key] = v]. *)
Definition assign (l : loc) (key : string) (v : value) : M unit := fun st =>
  (Ok tt,
   {| heap := <[l := set_field (default [] (heap st !! l)) key v]> (heap st);
      trace := trace st |}).

Definition emit (e : event) : M unit := fun st =>
  (Ok tt, {| heap := heap st; trace := trace st ++ [e] |}).

(** [v === null] for the result of [headerValue] on an object of values. *)
Definition isNull (v : option value) : bool :=
  match v with
  | None | Some VNull => true
  | Some _ => false
  end.

Section Request.
Context `{P : Platform}.

(** The [switch] on the declared content type of an object that is not
    a [Buffer] (lines 437-451): the serialized data. *)
Definition serialize (headers : loc) (data : value) : M value :=
  hs ← read headers;
  match headerValue hs CONTENT_TYPE_HEADER with
  | Some (VStr type) =>
      if String.eqb type JSON_MEDIA_TYPE then
        mret (VStr (JSON_stringify data))
      else if String.eqb type FORM_MEDIA_TYPE then
        mret (VStr (querystring_stringify data))
      else
        throw (TypeError ("Unsuported media type: " ++ type
                            ++ ". Cannot serialize object."))
  | None | Some VNull =>
      assign headers CONTENT_TYPE_HEADER (VStr JSON_MEDIA_TYPE);;
      mret (VStr (JSON_stringify data))
  | Some type =>
      throw (TypeError ("Unsuported media type: " ++ to_string type
                          ++ ". Cannot serialize object."))
  end.

(** Lines 453-455: the length of a string body, unless the headers
    already have one. *)
Definition setContentLength (headers : loc) (data : value) : M unit :=
  match data with
  | VStr s =>
      hs ← read headers;
      if isNull (headerValue hs CONTENT_LENGTH_HEADER) then
        assign headers CONTENT_LENGTH_HEADER (VNum (Buffer_byteLength s))
      else mret tt
  | _ => mret tt
  end.

(** Lines 457-465: the instance's options under the request's own. *)
Definition mergedOptions (this : HttpService) (method : string)
    (path : option string) (headers : loc) : RequestOptions.t :=
  {| RequestOptions.base := options this;
     RequestOptions.method := method;
     RequestOptions.protocol := protocol this;
     RequestOptions.host := hostname this;
     RequestOptions.port := port this;
     RequestOptions.path := pathname this ++ default EmptyString path;
     RequestOptions.headers := headers |}.

(** Lines 457-467 and 493-503: the options, the call of the transport,
    the body and the end of the request.  (Registering the ['error']
    listener does nothing on the transport.) *)
Definition send (this : HttpService) (method : string)
    (path : option string) (headers : loc) (data : value) : M unit :=
  let options := mergedOptions this method path headers in
  hs ← read headers;
  emit (ClientRequest options hs);;
  (if notNull data then
     if isString data || isBuffer data then emit (Write data)
     else throw (TypeError ("Expected a string or Buffer for the data (got "
                              ++ typeof data ++ " instead)."))
   else mret tt);;
  emit End.

(** The sending half of [request(method, path, headers, data, callback)]
    (lines 431-466 and 493-503; lines 137-172 and 220-230 of the first
    draft differ only in throwing [Error] with another text).  [headers]
    is [null] or a reference to the caller's object.  The callback is
    registered with the transport and runs later: see [on_end]. *)
Definition request (this : HttpService) (method : string)
    (path : option string) (headers : option loc) (data : value)
  : M unit :=
  let method := toUpperCase method in
  headers ← match headers with
            | Some l => mret l
            | None => alloc []
            end;
  data ←
    (if notNull data then
       data ← (if isObject data && negb (isBuffer data)
               then serialize headers data
               else mret data);
       setContentLength headers data;;
       mret data
     else mret data);
  send this method path headers data.
End Request.

(** The convenience methods (lines 393-429).  [query] is [None] when the
    callback stands in its place. *)
Module Convenience.
Section Methods.
Context `{P : Platform}.

Definition get (this : HttpService) (path : string) (query : option value)
: M unit :=
let path := match query with
            | None => path
            | Some q => appendQuery path q
            end in
request this "GET" (Some path) None VNull.

Definition head (this : HttpService) (path : string) (query : option value)
: M unit :=
let path := match query with
            | None => path
            | Some q => appendQuery path q
            end in
request this "HEAD" (Some path) None VNull.

Definition post (this : HttpService) (path : string) (data : value) : M unit :=
request this "POST" (Some path) None data.

Definition put (this : HttpService) (path : string) (data : value) : M unit :=
request this "PUT" (Some path) None data.

Definition patch (this : HttpService) (path : string) (data : value) : M unit :=
request this "PATCH" (Some path) None data.

Definition delete (this : HttpService) (path : string) : M unit :=
request this "DELETE" (Some path) None VNull.
End Methods.
End Convenience.

(** ** Completion *)

(** Response headers as Node delivers them: lower-cased names, string
    values. *)
Abbreviation response_headers := (list (string * string)).

(** What the transport reports for one request: a response whose body
    chunks have all arrived (the ['data'] handler pushed them onto
    [chunks] in arrival order), or an ['error'] event. *)
Inductive reply : Type :=
| Responded (statusCode : Z) (headers : response_headers)
            (chunks : list (list byte))
| Failed (err : error).

(** The bracketed prefix of every message (lines 37 and 365). *)
Definition target (opt : RequestOptions.t) : string :=
  "[" ++ RequestOptions.method opt ++ " " ++ RequestOptions.protocol opt
      ++ "//" ++ RequestOptions.host opt ++ ":"
      ++ string_of_Z (RequestOptions.port opt) ++ RequestOptions.path opt
      ++ "]".

(** [v.toString()]. *)
Definition toString `{P : Platform} (v : value) : result string :=
  match v with
  | VUndefined =>
      Throw (TypeError "Cannot read properties of undefined (reading 'toString')")
  | VNull =>
      Throw (TypeError "Cannot read properties of null (reading 'toString')")
  | _ => Ok (to_string v)
  end.

(** [JSON.parse(text)] as a computation. *)
Definition parseJSON `{P : Platform} (text : string) : result value :=
  match JSON_parse text with
  | inl m => Throw (SyntaxError m)
  | inr v => Ok v
  end.

(** [a && a.key]: the left operand when it is falsy. *)
Definition andProp (a : value) (key : string) : result value :=
  if truthy a then getProp a key else Ok a.

(** *** First draft: four-argument callback (lines 137-231) *)
Module FourArg.
Section Handler.
Context `{P : Platform}.

(** One invocation of the callback: [callback(err)] or
  [callback(null, body, type, headers)]. *)
Inductive callback_call : Type :=
| Failure (err : error)
| Success (body : value) (type : option string) (headers : response_headers).

(** [httpError(code, opt, msg)] (lines 36-39). *)
Definition httpError (code : Z) (opt : RequestOptions.t) (msg : value)
: error :=
HttpError code (target opt ++ " " ++ to_string msg).

(** The error shapes looked for in a parsed JSON body (lines 196-208):
  [inl] is the error handed to the callback, [inr] the body kept. *)
Definition errorShapes (code : Z) (options : RequestOptions.t) (body : value)
: result (error + value) :=
let? description := getProp body "error_description" in
if truthy description then
  match description with
  | VStr s => Ok (inl (httpError code options (VStr (first_line s))))
  | _ => Throw (TypeError "body.error_description.split is not a function")
  end
else
  let? m := (let? e := getProp body "error" in andProp e "message") in
  if truthy m then Ok (inl (httpError code options m))
  else
    let? m := (let? e := getProp body "odata.error" in andProp e "message") in
    if truthy m then
      let? v := getProp m "value" in
      Ok (inl (httpError code options v))
    else Ok (inr body).

(** The ['end'] handler (lines 177-218).  [Throw] is an exception that
  leaves the handler: the callback is then not invoked. *)
Definition on_end (options : RequestOptions.t) (statusCode : Z)
  (headers : response_headers) (chunks : list (list byte))
: result callback_call :=
if statusCode =? 204 then Ok (Success VNull None headers)
else
  let code := statusCode in
  let type := removeParams (headerValue headers CONTENT_TYPE_HEADER) in
  let body := concat chunks in
  let? resolved :=
    (if String.eqb (RequestOptions.method options) "HEAD" then
       Ok (inr VNull)
     else
       match type with
       | None =>
           Throw (TypeError
                    "Cannot read properties of null (reading 'startsWith')")
       | Some t =>
           if String.eqb t "application/json" then
             let text := Buffer_toString body in
             if negb (truthy_string text) then
               Ok (inl (httpError 502 options (VStr "Empty Response")))
             else
               match JSON_parse text with
               | inl m => Ok (inl (httpError 502 options (VStr m)))
               | inr parsed => errorShapes code options parsed
               end
           else if startsWith t "text/" || endsWith t "+xml" then
             Ok (inr (VStr (Buffer_toString body)))
           else Ok (inr (VBuf body))
       end) in
  match resolved with
  | inl err => Ok (Failure err)
  | inr body =>
      let success := (code =? 200) || (code =? 201) in
      if negb success then
        Ok (Failure (httpError statusCode options
                       (VStr "The request was not successfully completed.")))
      else Ok (Success body type headers)
  end.

(** What the callback receives for a reply of the transport. *)
Definition complete (options : RequestOptions.t) (r : reply)
: result callback_call :=
match r with
| Responded statusCode headers chunks =>
    on_end options statusCode headers chunks
| Failed err => Ok (Failure err)
end.
End Handler.
End FourArg.

(** *** Second draft: one response record (lines 431-504) *)
Module OutcomeObj.
Section Handler.
Context `{P : Platform}.

(** The record handed to the callback (lines 485-490); [status] stands
  for the [HttpStatus] wrapper of the code. *)
Record Response : Type := mkResponse {
status  : Z;
headers : response_headers;
type    : option string;
body    : value
}.

(** One invocation: [callback(err, response)], or [callback(err)] from
  the ['error'] listener. *)
Inductive callback_call : Type :=
| Callback (err : option error) (response : option Response).

(** [_parseBody(type, body)] (lines 332-340). *)
Definition parseBody (type : option string) (body : value) : result value :=
match type with
| Some t =>
    if String.eqb t JSON_MEDIA_TYPE then
      let? text := toString body in
      parseJSON text
    else if truthy_string t && (startsWith t "text/" || endsWith t "+xml")
    then
      let? text := toString body in
      Ok (VStr text)
    else Ok body
| None => Ok body
end.

(** The statement [return callback(httpError(code, options, message))]
  inside [_parseError]: [callback] is not bound in that function nor
  globally, so reading it throws before the arguments are evaluated. *)
Definition callback_unbound {A : Type} : result A :=
Throw (ReferenceError "callback is not defined").

(** [_parseError(type, body)] (lines 342-362): the text it returns, [None]
  for [null]. *)
Definition parseError (type : option string) (body : value)
: result (option string) :=
if negb match type with
        | Some t => String.eqb t JSON_MEDIA_TYPE
        | None => false
        end
then Ok None
else
  let? description := getProp body "error_description" in
  if truthy description then
    match description with
    | VStr s => let message := first_line s in callback_unbound
    | _ => Throw (TypeError "body.error_description.split is not a function")
    end
  else
    let? m := (let? e := getProp body "error" in andProp e "message") in
    if truthy m then callback_unbound
    else
      let? m := (let? e := getProp body "odata.error" in andProp e "message") in
      if truthy m then
        let? message := getProp m "value" in
        callback_unbound
      else Ok None.

(** [_makeMessage(opt, txt)] (lines 364-367). *)
Definition makeMessage (opt : RequestOptions.t) (txt : option string)
: string :=
let msg := target opt in
match txt with
| Some t => if truthy_string t then msg ++ " " ++ t else msg
| None => msg
end.

(** The ['end'] handler (lines 471-491).  The pair is [(err, body)] as
  the [try] block leaves them. *)
Definition on_end (options : RequestOptions.t) (statusCode : Z)
  (headers : response_headers) (chunks : list (list byte))
: callback_call :=
let status := statusCode in
let type := removeParams (headerValue headers CONTENT_TYPE_HEADER) in
let body := if status_noContent status then VNull else VBuf (concat chunks) in
let caught (e : error) : option error :=
  Some (Error (makeMessage options (Some ("Parse Error: " ++ message e)))) in
let '(err, body) :=
  match parseBody type body with
  | Throw e => (caught e, body)
  | Ok body =>
      if status_isError status then
        match parseError type body with
        | Ok txt => (Some (status_error status (makeMessage options txt)), body)
        | Throw e => (caught e, body)
        end
      else (None, body)
  end in
Callback err (Some {| status := status;
                      headers := headers;
                      type := type;
                      body := body |}).

(** What the callback receives for a reply of the transport (lines
  467-495). *)
Definition complete (options : RequestOptions.t) (r : reply)
: callback_call :=
match r with
| Responded statusCode headers chunks =>
    on_end options statusCode headers chunks
| Failed err => Callback (Some err) None
end.
End Handler.
End OutcomeObj.

(** ** A concrete platform *)

(** An executable instance of [Platform] on which the examples run.  It
    covers the ASCII, integral fragment of the library functions: JSON
    text without [\u] escapes, fractions or exponents; URLs of the form
    [scheme://host[:port][/path]]; the usual reading of the status
    classes (204 is "no content", 4xx and 5xx are errors); a status error
    that keeps the message it is given, where the real helper puts the
    code and its text before it. *)
Module Node.

(** *** JSON.parse *)

(** The characters of a string literal after the opening quote. *)
Fixpoint string_body (s : string) : option (string * string) :=
  match s with
  | EmptyString => None
  | String "034" r => Some (EmptyString, r)
  | String "\" (String e r) =>
      let plain (c : ascii) :=
        match string_body r with
        | Some (t, r') => Some (String c t, r')
        | None => None
        end in
      match e with
      | "034"%char => plain "034"%char
      | "\"%char => plain "\"%char
      | "/"%char => plain "/"%char
      | "b"%char => plain "008"%char
      | "f"%char => plain "012"%char
      | "n"%char => plain "010"%char
      | "r"%char => plain "013"%char
      | "t"%char => plain "009"%char
      | _ => None
      end
  | String c r =>
      if (nat_of_ascii c <? 32)%nat then None
      else match string_body r with
           | Some (t, r') => Some (String c t, r')
           | None => None
           end
  end.

Fixpoint span_digits (s : string) : string * string :=
  match s with
  | String c r =>
      match digit 10 c with
      | Some _ => let '(d, r') := span_digits r in (String c d, r')
      | None => (EmptyString, s)
      end
  | EmptyString => (EmptyString, s)
  end.

(** An integer literal: no leading zero, no fraction, no exponent. *)
Definition number (s : string) : option (value * string) :=
  let '(neg, s1) := match s with
                    | String "-" r => (true, r)
                    | _ => (false, s)
                    end in
  let '(d, r) := span_digits s1 in
  match d, r with
  | EmptyString, _ => None
  | String "0" (String _ _), _ => None
  | _, String "." _ | _, String "e" _ | _, String "E" _ => None
  | _, _ =>
      match digits 10 d None with
      | Some n => Some (VNum (if neg then - n else n), r)
      | None => None
      end
  end.

Section Composite.
Variable element : string -> option (value * string).

(** After ['['] and a first element: [, value]* followed by [']']. *)
Fixpoint elements (n : nat) (s : string) (acc : list value)
  : option (value * string) :=
  match n with
  | O => None
  | S n' =>
      match trimStart s with
      | String "]" r => Some (VArr (rev acc), r)
      | String "," r =>
          match element r with
          | Some (v, r') => elements n' r' (v :: acc)
          | None => None
          end
      | _ => None
      end
  end.

Definition member (s : string) : option (string * value * string) :=
  match trimStart s with
  | String "034" r =>
      match string_body r with
      | Some (k, r1) =>
          match trimStart r1 with
          | String ":" r2 =>
              match element r2 with
              | Some (v, r3) => Some (k, v, r3)
              | None => None
              end
          | _ => None
          end
      | None => None
      end
  | _ => None
  end.

(** After ['{'] and a first member: [, member]* followed by ['}']. *)
Fixpoint members (n : nat) (s : string) (acc : obj)
  : option (value * string) :=
  match n with
  | O => None
  | S n' =>
      match trimStart s with
      | String "}" r => Some (VObj acc, r)
      | String "," r =>
          match member r with
          | Some (k, v, r') => members n' r' (set_field acc k v)
          | None => None
          end
      | _ => None
      end
  end.
End Composite.

Fixpoint element (fuel : nat) (s : string) : option (value * string) :=
  match fuel with
  | O => None
  | S fuel' =>
      let s := trimStart s in
      let n := String.length s in
      match s with
      | String "{" r =>
          match trimStart r with
          | String "}" r' => Some (VObj [], r')
          | _ =>
              match member (element fuel') r with
              | Some (k, v, r') => members (element fuel') n r' [(k, v)]
              | None => None
              end
          end
      | String "[" r =>
          match trimStart r with
          | String "]" r' => Some (VArr [], r')
          | _ =>
              match element fuel' r with
              | Some (v, r') => elements (element fuel') n r' [v]
              | None => None
              end
          end
      | String "034" r =>
          match string_body r with
          | Some (t, r') => Some (VStr t, r')
          | None => None
          end
      | _ =>
          if isPrefix "true" s then Some (VBool true, drop_string 4 s)
          else if isPrefix "false" s then Some (VBool false, drop_string 5 s)
          else if isPrefix "null" s then Some (VNull, drop_string 4 s)
          else number s
      end
  end.

Definition parse (text : string) : string + value :=
  match trimStart text with
  | EmptyString => inl "Unexpected end of JSON input"
  | _ =>
      match element (S (String.length text)) text with
      | Some (v, rest) =>
          match trimStart rest with
          | EmptyString => inr v
          | _ => inl "Unexpected token in JSON"
          end
      | None => inl "Unexpected token in JSON"
      end
  end.
(** *** JSON.stringify *)

Fixpoint quote_body (s : string) : string :=
  match s with
  | EmptyString => EmptyString
  | String c r =>
      let rest := quote_body r in
      match c with
      | "034"%char => String "\" (String "034" rest)
      | "\"%char => String "\" (String "\" rest)
      | "010"%char => String "\" (String "n" rest)
      | "013"%char => String "\" (String "r" rest)
      | "009"%char => String "\" (String "t" rest)
      | _ => String c rest
      end
  end.

Definition quote (s : string) : string :=
  String "034" (quote_body s ++ String "034" EmptyString).

(** [undefined] is dropped from objects and written [null] in arrays; a
    [Buffer] is written through its [toJSON]. *)
Fixpoint stringify (v : value) : string :=
  match v with
  | VUndefined => "null"
  | VNull => "null"
  | VBool true => "true"
  | VBool false => "false"
  | VNum n => string_of_Z n
  | VStr s => quote s
  | VBuf b =>
      "{" ++ quote "type" ++ ":" ++ quote "Buffer" ++ "," ++ quote "data" ++ ":["
          ++ String.concat "," (List.map (fun x => string_of_Z (Z.of_N (Byte.to_N x))) b)
          ++ "]}"
  | VArr items =>
      "[" ++ String.concat "," (List.map stringify items) ++ "]"
  | VObj fields =>
      "{" ++ String.concat ","
               (List.flat_map
                  (fun '(k, w) => match w with
                                  | VUndefined => []
                                  | _ => [quote k ++ ":" ++ stringify w]
                                  end) fields)
          ++ "}"
  end.

(** *** querystring.stringify *)

Definition hexDigit (n : nat) : ascii :=
  if (n <? 10)%nat then ascii_of_nat (48 + n) else ascii_of_nat (55 + n).

Definition unreserved (c : ascii) : bool :=
  let n := nat_of_ascii c in
  (((48 <=? n) && (n <=? 57)) || ((65 <=? n) && (n <=? 90))
   || ((97 <=? n) && (n <=? 122))
   || existsb (Nat.eqb n) [45; 95; 46; 33; 126; 42; 39; 40; 41])%nat.

Fixpoint escape (s : string) : string :=
  match s with
  | EmptyString => EmptyString
  | String c r =>
      if unreserved c then String c (escape r)
      else let n := nat_of_ascii c in
           String "%" (String (hexDigit (n / 16)) (String (hexDigit (n mod 16))
                                                         (escape r)))
  end.

Definition primitive (v : value) : string :=
  match v with
  | VStr s => escape s
  | VNum n => string_of_Z n
  | VBool true => "true"
  | VBool false => "false"
  | _ => EmptyString
  end.

Definition form_encode (v : value) : string :=
  match v with
  | VObj fields =>
      String.concat "&"
        (List.flat_map
           (fun kv =>
              match snd kv with
              | VArr items =>
                  List.map (fun x => escape (fst kv) ++ "=" ++ primitive x) items
              | w => [escape (fst kv) ++ "=" ++ primitive w]
              end) fields)
  | _ => EmptyString
  end.

(** *** url.parse *)

(** [s] up to the first character satisfying [stop], and the rest. *)
Fixpoint break (stop : ascii -> bool) (s : string) : string * string :=
  match s with
  | String c r =>
      if stop c then (EmptyString, s)
      else let '(a, b) := break stop r in (String c a, b)
  | EmptyString => (EmptyString, s)
  end.

(** The host split at its last colon when only digits follow it. *)
Fixpoint host_port (host : string) : string * option string :=
  match host with
  | EmptyString => (EmptyString, None)
  | String c r =>
      if Ascii.eqb c ":" && negb (0 <=? indexOf r ":")
         && String.eqb (fst (span_digits r)) r
      then (EmptyString, if truthy_string r then Some r else None)
      else let '(h, p) := host_port r in (String c h, p)
  end.

Definition parse_url (uri : string) : Url.t :=
  let '(scheme, rest) := break (fun c => Ascii.eqb c ":") uri in
  match rest with
  | String ":" (String "/" (String "/" after)) =>
      let '(authority, tail) :=
        break (fun c => Ascii.eqb c "/" || Ascii.eqb c "?" || Ascii.eqb c "#")
              after in
      let '(path, _) :=
        break (fun c => Ascii.eqb c "?" || Ascii.eqb c "#") tail in
      let '(host, port) := host_port authority in
      {| Url.protocol := Some (toLowerCase scheme ++ ":");
         Url.hostname := toLowerCase host;
         Url.port := port;
         Url.pathname := if truthy_string path then path else "/" |}
  | _ =>
      {| Url.protocol := None; Url.hostname := EmptyString; Url.port := None;
         Url.pathname := uri |}
  end.

(** *** The instance *)

#[global] Instance platform : Platform := {|
  JSON_parse := parse;
  JSON_stringify := stringify;
  querystring_stringify := form_encode;
  Buffer_toString := string_of_list_byte;
  Buffer_byteLength := fun s => Z.of_nat (String.length s);
  url_parse := parse_url;
  status_noContent := fun code => code =? 204;
  status_isError := fun code => (400 <=? code) && (code <=? 599);
  status_error := fun code message => HttpError code message
|}.
End Node.

(** ** Data for the examples *)

Module Sample.
(** JSON text written with ['] for the double quote. *)
Definition json (s : string) : string :=
  map_string (fun c => if Ascii.eqb c "'" then "034"%char else c) s.

Definition bytes (s : string) : list byte := list_byte_of_string s.

(** [s.includes(sub)]. *)
Fixpoint includes (s sub : string) : bool :=
  isPrefix sub s
  || match s with
     | EmptyString => false
     | String _ r => includes r sub
     end.

(** [new HttpService('http://httpbin.org')], as in the test file. *)
Definition service : HttpService :=
  {| protocol := "http:"; hostname := "httpbin.org"; pathname := "/";
     port := 80; options := [] |}.

(** The options [request] builds on [service] for a path. *)
Definition options (method path : string) (headers : loc) : RequestOptions.t :=
  {| RequestOptions.base := [];
     RequestOptions.method := method;
     RequestOptions.protocol := "http:";
     RequestOptions.host := "httpbin.org";
     RequestOptions.port := 80;
     RequestOptions.path := "/" ++ path;
     RequestOptions.headers := headers |}.

(** A store holding one caller-owned headers object. *)
Definition store (headers : obj) : state :=
  {| heap := [headers]; trace := [] |}.

Definition bad_token : string := json "{'error':{'message':'bad token'}}".

Definition json_type : response_headers :=
  [("content-type", "application/json")].
End Sample.

(** ** Vocabulary of the statements *)

Definition isDigit (c : ascii) : bool :=
  let n := Z.of_nat (nat_of_ascii c) in (48 <=? n) && (n <=? 57).

Fixpoint allDigits (p : string) : bool :=
  match p with
  | EmptyString => true
  | String c r => isDigit c && allDigits r
  end.

(** A port as [url.parse] reports it: one or more decimal digits. *)
Definition isDigits (p : string) : bool := truthy_string p && allDigits p.

Fixpoint decimal_from (acc : Z) (p : string) : Z :=
  match p with
  | EmptyString => acc
  | String c r => decimal_from (10 * acc + (Z.of_nat (nat_of_ascii c) - 48)) r
  end.

(** The number a string of decimal digits denotes. *)
Definition decimal (p : string) : Z := decimal_from 0 p.

(** The port of a scheme: 80 for http, 443 otherwise. *)
Definition standard_port (protocol : string) : Z :=
  if String.eqb protocol "http:" then 80 else 443.

(** Whether [client.request] occurs in a trace. *)
Definition transport_called (tr : list event) : bool :=
  existsb (fun e => match e with ClientRequest _ _ => true | _ => false end) tr.

(** Whether the body is a string once the serialization step is over: a
    string, or an object (not a [Buffer]) whose declared content type is
    absent, JSON or form-encoded. *)
Definition sendsString (hs : obj) (data : value) : bool :=
  match data with
  | VStr _ => true
  | VArr _ | VObj _ =>
      match headerValue hs CONTENT_TYPE_HEADER with
      | None | Some VNull => true
      | Some (VStr t) =>
          String.eqb t JSON_MEDIA_TYPE || String.eqb t FORM_MEDIA_TYPE
      | Some _ => false
      end
  | _ => false
  end.

(** The headers object after lines 453-455 have run for a body [d]. *)
Definition withContentLength `{P : Platform} (hs : obj) (d : value) : obj :=
  match d with
  | VStr s =>
      if isNull (headerValue hs CONTENT_LENGTH_HEADER)
      then set_field hs CONTENT_LENGTH_HEADER (VNum (Buffer_byteLength s))
      else hs
  | _ => hs
  end.

(** Whether an invocation of the callback of the second draft carries
    nothing next to a non-null error. *)
Definition error_alone (c : OutcomeObj.callback_call) : bool :=
  match c with
  | OutcomeObj.Callback (Some _) (Some _) => false
  | _ => true
  end.

(** The same options for another method. *)
Definition with_method (m : string) (o : RequestOptions.t) : RequestOptions.t :=
  {| RequestOptions.base := RequestOptions.base o;
     RequestOptions.method := m;
     RequestOptions.protocol := RequestOptions.protocol o;
     RequestOptions.host := RequestOptions.host o;
     RequestOptions.port := RequestOptions.port o;
     RequestOptions.path := RequestOptions.path o;
     RequestOptions.headers := RequestOptions.headers o |}.

(** The response record of an invocation, and whether its error slot is
    null. *)
Definition delivered (c : OutcomeObj.callback_call)
  : option OutcomeObj.Response :=
  match c with OutcomeObj.Callback _ r => r end.

Definition succeeded (c : OutcomeObj.callback_call) : bool :=
  match c with
  | OutcomeObj.Callback None _ => true
  | OutcomeObj.Callback (Some _) _ => false
  end.

(** [headers = headers || {}] (line 434): the reference the rest of
    [request] works on, and the store it finds. *)
Inductive headers_object (st : state) : option loc -> loc -> state -> Prop :=
| caller_object (l : loc) : headers_object st (Some l) l st
| fresh_object :
    headers_object st None (length (heap st))
      {| heap := heap st ++ [[]]; trace := trace st |}.

(** The text [appendQuery] appends for a query: the form encoding of an
    object, a string itself, nothing for any other value. *)
Definition queryText `{P : Platform} (query : value) : option string :=
  if isObject query then Some (querystring_stringify query)
  else match query with
       | VStr q => Some q
       | _ => None
       end.

(** Two header lists that differ only in the case of their names. *)
Definition same_up_to_case {V : Type} (a b : string * V) : Prop :=
  toLowerCase (fst a) = toLowerCase (fst b) /\ snd a = snd b.

(** What a computation may do to the store when it works on the object
    at [l]: no object is added or removed, every other object is kept. *)
Definition only_changes (l : loc) (st st' : state) : Prop :=
  length (heap st') = length (heap st)
  /\ forall l', l' <> l -> heap st' !! l' = heap st !! l'.

(** The path a convenience method requests. *)
Definition queried `{P : Platform} (path : string) (query : option value)
  : string :=
  match query with
  | None => path
  | Some q => appendQuery path q
  end.

(** Whether a normalized type makes the second draft decode the body as
    text. *)
Definition textual (t : string) : bool :=
  truthy_string t && (startsWith t "text/" || endsWith t "+xml").

(** Whether a normalized type is exactly the JSON media type. *)
Definition declaresJSON (type : option string) : bool :=
  match type with
  | Some t => String.eqb t JSON_MEDIA_TYPE
  | None => false
  end.

Definition declaresText (type : option string) : bool :=
  match type with
  | Some t => textual t
  | None => false
  end.

(** * Properties *)

(** ** [removeParams] *)

Lemma indexOf_lower_bound (s : string) (c : ascii) : -1 <= indexOf s c.
Proof.
  induction s as [|a s IH]; simpl; [lia|].
  destruct (Ascii.eqb a c); [lia|].
  destruct (indexOf s c <? 0) eqn:E; lia.
Qed.

Lemma strip_without_semicolon (s : string) :
  indexOf s ";" = -1 -> strip_from_semicolon s = s.
Proof.
  induction s as [|a s IH]; simpl; [reflexivity|].
  destruct (Ascii.eqb a ";"); [discriminate|].
  pose proof (indexOf_lower_bound s ";") as Hlb.
  destruct (indexOf s ";" <? 0) eqn:E; intros H.
  - apply Z.ltb_lt in E. rewrite IH by lia. reflexivity.
  - apply Z.ltb_ge in E. lia.
Qed.

Lemma substring_to_semicolon (s : string) :
  0 <= indexOf s ";" ->
  substring0 s (indexOf s ";") = strip_from_semicolon s.
Proof.
  unfold substring0.
  induction s as [|a s IH]; simpl; [lia|].
  destruct (Ascii.eqb a ";"); [reflexivity|].
  destruct (indexOf s ";" <? 0) eqn:E; intros H; [lia|].
  apply Z.ltb_ge in E.
  replace (Z.to_nat (indexOf s ";" + 1)) with (S (Z.to_nat (indexOf s ";")))
    by lia.
  simpl. rewrite IH by lia. reflexivity.
Qed.

Lemma indexOf_zero_prefix (s : string) :
  indexOf s ";" = 0 <-> isPrefix ";" s = true.
Proof.
  destruct s as [|a s]; cbn [indexOf isPrefix]; [split; discriminate|].
  rewrite (Ascii.eqb_sym ";" a).
  destruct (Ascii.eqb a ";"); [split; reflexivity|].
  pose proof (indexOf_lower_bound s ";").
  destruct (indexOf s ";" <? 0) eqn:E; split; intros H0;
    try discriminate H0.
  apply Z.ltb_ge in E. lia.
Qed.

(** C9, as stated, at a value that begins with [;]: nothing is cut,
    although everything from the first [;] onward is the whole text. *)
Lemma removeParams_leading_semicolon :
  removeParams (Some ";charset=utf-8")
  <> Some (strip_from_semicolon ";charset=utf-8").
Proof. vm_compute. discriminate. Qed.

(** C9 (amended): [removeParams] cuts a content type at its first [;]
    unless that [;] is the first character, in which case the text is
    returned as it is; a text without [;] is returned unchanged. *)
Theorem removeParams_spec (s : string) :
  removeParams (Some s)
  = Some (if isPrefix ";" s then s else strip_from_semicolon s)
  /\ (indexOf s ";" = -1 -> removeParams (Some s) = Some s).
Proof.
  assert (Hmain : removeParams (Some s)
          = Some (if isPrefix ";" s then s else strip_from_semicolon s)).
  { unfold removeParams.
    destruct s as [|a s]; [reflexivity|].
    cbn [truthy_string].
    pose proof (indexOf_zero_prefix (String a s)) as Hz.
    pose proof (indexOf_lower_bound (String a s) ";") as Hlb.
    cbv zeta.
    destruct (indexOf (String a s) ";" >? 0) eqn:E.
    - apply Z.gtb_lt in E.
      rewrite substring_to_semicolon by lia.
      destruct (isPrefix ";" (String a s)); [|reflexivity].
      destruct Hz as [_ Hz]. specialize (Hz eq_refl). lia.
    - destruct (isPrefix ";" (String a s)) eqn:Ep; [reflexivity|].
      assert (indexOf (String a s) ";" = -1) as Hm.
      { assert (indexOf (String a s) ";" <> 0) by (intros H0; apply Hz in H0; discriminate).
        assert (~ indexOf (String a s) ";" > 0) by (rewrite Z.gtb_ltb in E; apply Z.ltb_ge in E; lia).
        lia. }
      rewrite strip_without_semicolon by exact Hm. reflexivity. }
  split; [exact Hmain|].
  intros Hm. rewrite Hmain.
  destruct (isPrefix ";" s); [reflexivity|].
  rewrite strip_without_semicolon by exact Hm. reflexivity.
Qed.

Example removeParams_charset :
  removeParams (Some "text/html; charset=utf-8") = Some "text/html".
Proof. reflexivity. Qed.

Example removeParams_plain :
  removeParams (Some "text/html") = Some "text/html".
Proof. reflexivity. Qed.

(** ** The constructor *)

Lemma isDigit_digit (c : ascii) :
  isDigit c = true -> digit 10 c = Some (Z.of_nat (nat_of_ascii c) - 48).
Proof. unfold isDigit, digit. intros ->. reflexivity. Qed.

Lemma isDigit_not (c d : ascii) :
  isDigit c = true -> isDigit d = false -> Ascii.eqb d c = false.
Proof.
  intros Hc Hd. destruct (Ascii.eqb_spec d c) as [->|]; [congruence|reflexivity].
Qed.

Lemma isDigit_not_space (c : ascii) : isDigit c = true -> isWhiteSpace c = false.
Proof.
  unfold isDigit, isWhiteSpace. intros H.
  apply andb_prop in H as [H1 H2].
  apply Z.leb_le in H1. apply Z.leb_le in H2.
  apply orb_false_intro.
  - apply Nat.eqb_neq. lia.
  - apply andb_false_intro2. apply Nat.leb_gt. lia.
Qed.

Lemma digits_decimal (r : string) (acc : Z) :
  allDigits r = true -> digits 10 r (Some acc) = Some (decimal_from acc r).
Proof.
  revert acc. induction r as [|c r IH]; intros acc H; [reflexivity|].
  cbn [allDigits] in H. apply andb_prop in H as [Hc Hr].
  cbn [digits decimal_from]. rewrite (isDigit_digit c Hc).
  cbn [default from_option]. apply IH, Hr.
Qed.

Lemma decimal_from_nonneg (p : string) (acc : Z) :
  0 <= acc -> allDigits p = true -> 0 <= decimal_from acc p.
Proof.
  revert acc. induction p as [|c p IH]; intros acc Hacc Hd; [exact Hacc|].
  cbn [allDigits] in Hd. apply andb_prop in Hd as [Hc Hp].
  cbn [decimal_from]. apply IH; [|exact Hp].
  unfold isDigit in Hc. apply andb_prop in Hc as [H1 _].
  apply Z.leb_le in H1. lia.
Qed.

(** A natural number up to 2^53 is a double. *)
Lemma toDouble_exact (n : Z) : 0 <= n <= 2 ^ 53 -> toDouble n = n.
Proof.
  intros [H0 H1]. destruct (Z.eq_dec n (2 ^ 53)) as [->|Hne]; [reflexivity|].
  unfold toDouble. cbv zeta.
  assert (Hbits : (Z.log2 n + 1 <=? 53) = true); [|rewrite Hbits; reflexivity].
  apply Z.leb_le. destruct (Z.eq_dec n 0) as [->|Hn]; [cbn; lia|].
  assert (Z.log2 n < 53) by (apply Z.log2_lt_pow2; lia). lia.
Qed.

Lemma toDouble_nonneg (n : Z) : 0 <= n -> 0 <= toDouble n.
Proof.
  intros H0. unfold toDouble. cbv zeta.
  destruct (Z.log2 n + 1 <=? 53); [exact H0|].
  apply Z.shiftl_nonneg.
  assert (0 <= Z.shiftr n (Z.log2 n + 1 - 53)) by (apply Z.shiftr_nonneg, H0).
  destruct (_ || _); lia.
Qed.

(** [parseInt] reads a port made of digits as the double nearest to the
    number it denotes. *)
Lemma parseInt_digits (p : string) :
  isDigits p = true -> parseInt (Some p) = Some (toDouble (decimal p)).
Proof.
  unfold isDigits. destruct p as [|c r]; [discriminate|].
  cbn [truthy_string allDigits andb]. intros H.
  apply andb_prop in H as [Hc Hr].
  unfold parseInt. cbn [trimStart]. rewrite (isDigit_not_space c Hc).
  cbn [isPrefix].
  rewrite (isDigit_not c "-" Hc eq_refl), (isDigit_not c "+" Hc eq_refl).
  cbn [andb orb].
  assert (Hx : (Ascii.eqb "0" c
                && match r with
                   | EmptyString => false
                   | String b r' => Ascii.eqb "x" b && true
                   end
                || Ascii.eqb "0" c
                   && match r with
                      | EmptyString => false
                      | String b r' => Ascii.eqb "X" b && true
                      end) = false).
  { destruct r as [|b r']; [rewrite !andb_false_r; reflexivity|].
    cbn [allDigits] in Hr. apply andb_prop in Hr as [Hb _].
    rewrite (isDigit_not b "x" Hb eq_refl), (isDigit_not b "X" Hb eq_refl).
    cbn [andb]. rewrite !andb_false_r. reflexivity. }
  rewrite Hx. cbn [digits]. rewrite (isDigit_digit c Hc).
  cbn [default from_option]. rewrite (digits_decimal r _ Hr).
  unfold decimal. cbn [decimal_from]. reflexivity.
Qed.

(** Whether the constructor accepts the parsed protocol. *)
Lemma supported_protocol (proto : option string) :
  match proto with
  | Some p => String.eqb p "http:" || String.eqb p "https:"
  | None => false
  end = true ->
  proto = Some "http:" \/ proto = Some "https:".
Proof.
  destruct proto as [p|]; [|discriminate].
  intros H. apply orb_prop in H as [H|H]; apply String.eqb_eq in H; subst; auto.
Qed.

(** C7, as stated, at [http://example.com:0]: a port is specified, yet the
    instance's port is not that port. *)
Lemma constructor_port_zero :
  exists s,
    constructor (P := Node.platform) "http://example.com:0" None = Ok s
    /\ Url.port (url_parse "http://example.com:0") = Some "0"
    /\ port s <> decimal "0".
Proof.
  eexists. split; [reflexivity|]. split; [reflexivity|].
  vm_compute. discriminate.
Qed.

(** C7 (amended): construction fails exactly when the parsed protocol is
    neither [http:] nor [https:]; otherwise the instance keeps the
    protocol, its port is the URI's port when one is given, is not zero
    and is at most 2^53 (as every port that can be connected to is), and
    is 80 for http and 443 for https when the URI gives no port or gives
    port zero. *)
Theorem constructor_spec `{P : Platform} (uri : string) (opts : option obj) :
  let parsed := url_parse uri in
  match constructor uri opts with
  | Throw _ =>
      Url.protocol parsed <> Some "http:" /\ Url.protocol parsed <> Some "https:"
  | Ok s =>
      Url.protocol parsed = Some (protocol s)
      /\ (protocol s = "http:" \/ protocol s = "https:")
      /\ match Url.port parsed with
         | None => port s = standard_port (protocol s)
         | Some p =>
             isDigits p = true ->
             decimal p <= 2 ^ 53 ->
             port s = if decimal p =? 0 then standard_port (protocol s)
                      else decimal p
         end
  end.
Proof.
  intros parsed. unfold constructor. fold parsed.
  destruct (match Url.protocol parsed with
            | Some p => String.eqb p "http:" || String.eqb p "https:"
            | None => false
            end) eqn:Hs; cbn [negb].
  - pose proof (supported_protocol _ Hs) as Hp.
    cbn [protocol port].
    assert (Hproto : Url.protocol parsed
                     = Some (default EmptyString (Url.protocol parsed)))
      by (destruct Hp as [-> | ->]; reflexivity).
    split; [exact Hproto|]. split.
    + destruct Hp as [-> | ->]; [left|right]; reflexivity.
    + destruct (Url.port parsed) as [p|]; [|reflexivity].
      intros Hd Hle. rewrite (parseInt_digits p Hd).
      rewrite toDouble_exact; [reflexivity|].
      split; [|exact Hle]. unfold decimal.
      apply decimal_from_nonneg; [lia|].
      unfold isDigits in Hd. apply andb_prop in Hd as [_ Hd]. exact Hd.
  - destruct (Url.protocol parsed) as [p|]; [|split; discriminate].
    apply orb_false_elim in Hs as [H1 H2].
    apply String.eqb_neq in H1. apply String.eqb_neq in H2.
    split; congruence.
Qed.

Lemma constructor_spec_witness :
  isDigits "9000" = true
  /\ decimal "9000" <= 2 ^ 53
  /\ match constructor (P := Node.platform) "https://example.com:9000" None with
     | Ok s => protocol s = "https:" /\ port s = 9000
     | Throw _ => False
     end.
Proof.
  split; [reflexivity|].
  assert (Hle : decimal "9000" <= 2 ^ 53) by (vm_compute; discriminate).
  split; [exact Hle|].
  pose proof (constructor_spec (P := Node.platform)
                "https://example.com:9000" None) as H.
  cbv zeta in H.
  destruct (constructor "https://example.com:9000" None) as [s|e].
  - destruct H as (Hproto & _ & Hport).
    change (Url.protocol (url_parse "https://example.com:9000"))
      with (Some "https:") in Hproto.
    change (Url.port (url_parse "https://example.com:9000"))
      with (Some "9000") in Hport.
    injection Hproto as Hproto.
    split; [symmetry; exact Hproto|].
    rewrite (Hport eq_refl Hle). reflexivity.
  - destruct H as [_ H]. apply H. reflexivity.
Defined.

Example constructor_default_ports :
  constructor (P := Node.platform) "http://httpbin.org" None
  = Ok Sample.service
  /\ (exists s, constructor (P := Node.platform) "HTTPS://example.com/api" None
                = Ok s /\ port s = 443)
  /\ constructor (P := Node.platform) "ftp://example.com" None
     = Throw (URIError "'ftp://example.com' invalid protocol (expected http or https)").
Proof. repeat split. eexists. split; reflexivity. Qed.

(** Past 2^53 the port is the nearest double, not the number written. *)
Example constructor_port_rounded :
  exists s,
    constructor (P := Node.platform) "http://example.com:9007199254740993"
      None = Ok s
    /\ port s = 9007199254740992.
Proof. eexists. split; reflexivity. Qed.

(** ** Sending *)

Section Sending.
Context `{P : Platform}.

Lemma lookup_fresh (h : list obj) (o : obj) :
  default [] ((h ++ [o])%list !! length h) = o.
Proof.
  rewrite lookup_app_r by reflexivity.
  rewrite Nat.sub_diag. reflexivity.
Qed.

Lemma bind_run {A B : Type} (m : M A) (k : A -> M B) (st : state) :
  (m ≫= k) st
  = match m st with
    | (Ok a, st') => k a st'
    | (Throw e, st') => (Throw e, st')
    end.
Proof. reflexivity. Qed.

(** The serialization step returns a string and leaves the trace as it
    is when the declared type is absent, JSON or form-encoded; otherwise
    it throws and leaves the whole state as it is. *)
Lemma serialize_cases (l : loc) (data : value) (st : state) :
  isObject data && negb (isBuffer data) = true ->
  if sendsString (default [] (heap st !! l)) data then
    exists s st', serialize l data st = (Ok (VStr s), st')
                  /\ trace st' = trace st
  else exists e, serialize l data st = (Throw e, st).
Proof.
  intros Hobj.
  assert (Hs : sendsString (default [] (heap st !! l)) data
               = match headerValue (default [] (heap st !! l))
                         CONTENT_TYPE_HEADER with
                 | None | Some VNull => true
                 | Some (VStr t) =>
                     String.eqb t JSON_MEDIA_TYPE
                     || String.eqb t FORM_MEDIA_TYPE
                 | Some _ => false
                 end)
    by (destruct data; try discriminate Hobj; reflexivity).
  rewrite Hs. clear Hs.
  unfold serialize. rewrite bind_run. cbn [read].
  destruct (headerValue (default [] (heap st !! l)) CONTENT_TYPE_HEADER)
    as [[| | | |t| | |]|];
    try (eexists; reflexivity);
    try (do 2 eexists; split; reflexivity).
  destruct (String.eqb t JSON_MEDIA_TYPE);
    [do 2 eexists; split; reflexivity|].
  destruct (String.eqb t FORM_MEDIA_TYPE);
    [do 2 eexists; split; reflexivity|].
  eexists; reflexivity.
Qed.

(** Setting the content length never throws and calls nothing. *)
Lemma setContentLength_runs (l : loc) (data : value) (st : state) :
  exists st', setContentLength l data st = (Ok tt, st')
              /\ trace st' = trace st.
Proof.
  unfold setContentLength.
  destruct data; try (eexists; split; reflexivity).
  rewrite bind_run. cbn [read].
  destruct (isNull _); eexists; split; reflexivity.
Qed.

(** The last step: the transport is called first; what is neither
    [null], a string nor a [Buffer] makes it throw after that call. *)
Lemma send_run (this : HttpService) (method : string) (path : option string)
    (l : loc) (data : value) (st : state) :
  let call := ClientRequest (mergedOptions this method path l)
                            (default [] (heap st !! l)) in
  send this method path l data st
  = if notNull data then
      if isString data || isBuffer data then
        (Ok tt, {| heap := heap st;
                   trace := trace st ++ [call; Write data; End] |})
      else
        (Throw (TypeError ("Expected a string or Buffer for the data (got "
                             ++ typeof data ++ " instead).")),
         {| heap := heap st; trace := trace st ++ [call] |})
    else (Ok tt, {| heap := heap st; trace := trace st ++ [call; End] |}).
Proof.
  unfold send, mbind, M_bind, mret, M_ret, read, emit, throw.
  destruct data; cbn; rewrite <- ?app_assoc; reflexivity.
Qed.
(** C5 (amended): a failure of [request] is of one of two kinds.  For
    an object whose declared content type is neither JSON nor
    form-encoded it is raised before the transport is called: the trace
    is unchanged.  For data that is neither an object, a string nor a
    [Buffer] it is raised after [client.request] has been called, before
    anything is written or ended. *)
Theorem unsupported_body_failures (this : HttpService) (method : string)
    (path : option string) (headers : option loc) (data : value)
    (st st' : state) (e : error) :
  request this method path headers data st = (Throw e, st') ->
  (isObject data && negb (isBuffer data) = true
   /\ (exists l, headers = Some l
                 /\ sendsString (default [] (heap st !! l)) data = false)
   /\ st' = st)
  \/ (notNull data = true /\ isObject data = false /\ isString data = false
      /\ exists opts sent,
          trace st' = (trace st ++ [ClientRequest opts sent])%list).
Proof.
  unfold request. rewrite bind_run.
  destruct (notNull data) eqn:Hnull.
  2:{ (* null: nothing can throw *)
    destruct data; try discriminate Hnull.
    destruct headers as [l|]; cbn [mret M_ret alloc];
      rewrite bind_run; cbn [mret M_ret]; rewrite send_run;
      intros H; discriminate H. }
  destruct (isObject data && negb (isBuffer data)) eqn:Hobj.
  - (* an object: only the serialization can throw *)
    destruct headers as [l|]; cbn [mret M_ret alloc].
    + rewrite !bind_run.
      pose proof (serialize_cases l data st Hobj) as Hser.
      destruct (sendsString (default [] (heap st !! l)) data) eqn:Hsend.
      * destruct Hser as (s & st1 & -> & _).
        rewrite bind_run.
        destruct (setContentLength_runs l (VStr s) st1) as (st2 & -> & _).
        cbn [mret M_ret]. rewrite send_run. intros H; discriminate H.
      * destruct Hser as (e' & ->). intros H.
        injection H as _ <-. left. split; [reflexivity|].
        split; [|reflexivity]. exists l. split; [reflexivity|exact Hsend].
    + rewrite !bind_run.
      pose proof (serialize_cases (length (heap st)) data
                    {| heap := heap st ++ [[]]; trace := trace st |} Hobj)
        as Hser.
      cbn [heap] in Hser. rewrite lookup_fresh in Hser.
      assert (Hsend : sendsString [] data = true)
        by (destruct data; try discriminate Hobj; reflexivity).
      rewrite Hsend in Hser.
      destruct Hser as (s & st1 & -> & _).
      rewrite bind_run.
      destruct (setContentLength_runs (length (heap st)) (VStr s) st1)
        as (st2 & -> & _).
      cbn [mret M_ret]. rewrite send_run. intros H; discriminate H.
  - (* not serialized: only the last step can throw *)
    assert (Hkeep : forall l st1,
               (mret data
                  ≫= (fun d => setContentLength l d ≫= fun _ => mret d)) st1
               = (Ok data, snd (setContentLength l data st1))).
    { intros l st1. rewrite !bind_run. cbn [mret M_ret]. rewrite bind_run.
      destruct (setContentLength_runs l data st1) as (st2 & -> & _).
      reflexivity. }
    assert (Htrace : forall l st1,
               trace (snd (setContentLength l data st1)) = trace st1).
    { intros l st1.
      destruct (setContentLength_runs l data st1) as (st2 & -> & Ht).
      exact Ht. }
    destruct headers as [l|]; cbn [mret M_ret alloc];
      rewrite bind_run, Hkeep, send_run, Hnull;
      (destruct (isString data || isBuffer data) eqn:Hsb;
       [intros H; discriminate H|]);
      intros H; injection H as _ <-; right;
      (split; [reflexivity|]);
      (split; [destruct data; try discriminate Hobj; try discriminate Hsb;
               reflexivity|]);
      (split; [destruct data; try discriminate Hsb; reflexivity|]);
      do 2 eexists; cbn [trace]; rewrite Htrace; reflexivity.
Qed.

(** Both kinds of failure occur.  An object with an unsupported declared
    type makes [request] throw with the state untouched. *)
Lemma unsupported_type_throws_before_call (this : HttpService)
    (method : string) (path : option string) (l : loc) (data : value)
    (st : state) :
  isObject data && negb (isBuffer data) = true ->
  sendsString (default [] (heap st !! l)) data = false ->
  exists e, request this method path (Some l) data st = (Throw e, st).
Proof.
  intros Hobj Hsend.
  assert (Hn : notNull data = true)
    by (destruct data; try discriminate Hobj; reflexivity).
  unfold request. rewrite bind_run. cbn [mret M_ret]. rewrite Hn, Hobj.
  rewrite !bind_run.
  pose proof (serialize_cases l data st Hobj) as Hser.
  rewrite Hsend in Hser. destruct Hser as (e & ->).
  exists e. reflexivity.
Qed.

(** Data that is neither [null], an object, a string nor a [Buffer] makes
    [request] throw once the transport has been called. *)
Lemma other_data_throws_after_call (this : HttpService) (method : string)
    (path : option string) (l : loc) (data : value) (st : state) :
  notNull data = true ->
  isObject data = false ->
  isString data = false ->
  request this method path (Some l) data st
  = (Throw (TypeError ("Expected a string or Buffer for the data (got "
                         ++ typeof data ++ " instead).")),
     {| heap := heap st;
        trace := trace st
                 ++ [ClientRequest
                       (mergedOptions this (toUpperCase method) path l)
                       (default [] (heap st !! l))] |}).
Proof.
  intros Hn Hobj Hstr.
  unfold request. rewrite bind_run. cbn [mret M_ret]. rewrite Hn, Hobj.
  cbn [andb]. rewrite !bind_run. cbn [mret M_ret]. rewrite bind_run.
  destruct data; try discriminate Hn; try discriminate Hobj;
    try discriminate Hstr; cbn [setContentLength mret M_ret];
    rewrite send_run; reflexivity.
Qed.
End Sending.

(** C5, as stated, at a number for a body: [request] throws, and the
    transport has been called by then. *)
Lemma request_number_throws_after_call :
  fst (request (P := Node.platform) Sample.service "post" (Some "post") None
         (VNum 42) (Sample.store []))
  = Throw (TypeError "Expected a string or Buffer for the data (got number instead).")
  /\ transport_called
       (trace (snd (request (P := Node.platform) Sample.service "post"
                      (Some "post") None (VNum 42) (Sample.store []))))
     = true.
Proof. split; reflexivity. Qed.

Lemma unsupported_body_failures_witness :
  let st := Sample.store [("Content-Type", VStr "text/plain")] in
  let data := VObj [("a", VNum 1)] in
  request (P := Node.platform) Sample.service "post" (Some "post") (Some 0%nat)
    data st
  = (Throw (TypeError "Unsuported media type: text/plain. Cannot serialize object."),
     st)
  /\ ((isObject data && negb (isBuffer data) = true
       /\ (exists l, Some 0%nat = Some l
                     /\ sendsString (default [] (heap st !! l)) data = false)
       /\ st = st)
      \/ (notNull data = true /\ isObject data = false /\ isString data = false
          /\ exists opts sent,
              trace st = (trace st ++ [ClientRequest opts sent])%list)).
Proof.
  split; [reflexivity|].
  apply (unsupported_body_failures (P := Node.platform)
           Sample.service "post" (Some "post") (Some 0%nat)
           (VObj [("a", VNum 1)])
           (Sample.store [("Content-Type", VStr "text/plain")])
           (Sample.store [("Content-Type", VStr "text/plain")])
           (TypeError "Unsuported media type: text/plain. Cannot serialize object.")).
  reflexivity.
Defined.

(** ** Headers written by [request] *)

Lemma toLowerCase_content_type :
  toLowerCase CONTENT_TYPE_HEADER = CONTENT_TYPE_HEADER.
Proof. reflexivity. Qed.

Lemma toLowerCase_content_length :
  toLowerCase CONTENT_LENGTH_HEADER = CONTENT_LENGTH_HEADER.
Proof. reflexivity. Qed.

(** Writing a lower-case name that no key spells, in any case, appends. *)
Lemma set_field_absent (hs : obj) (name : string) (v : value) :
  toLowerCase name = name ->
  headerValue hs name = None ->
  set_field hs name v = (hs ++ [(name, v)])%list.
Proof.
  intros Hlow. induction hs as [|[k w] hs IH]; cbn [headerValue set_field];
    [reflexivity|].
  destruct (String.eqb (toLowerCase k) name) eqn:Ek; [discriminate|].
  intros Hnone.
  destruct (String.eqb_spec k name) as [->|_].
  - rewrite Hlow, String.eqb_refl in Ek. discriminate.
  - rewrite (IH Hnone). reflexivity.
Qed.

(** Reading back the field just written. *)
Lemma lookup_set_field (hs : obj) (key : string) (v : value) :
  lookup_field (set_field hs key v) key = v.
Proof.
  induction hs as [|[k w] hs IH]; cbn [set_field lookup_field].
  - rewrite String.eqb_refl. reflexivity.
  - destruct (String.eqb k key) eqn:E; cbn [lookup_field]; rewrite E;
      [reflexivity|exact IH].
Qed.

Lemma lookup_set_field_other (hs : obj) (key other : string) (v : value) :
  key <> other ->
  lookup_field (set_field hs key v) other = lookup_field hs other.
Proof.
  intros Hne. apply String.eqb_neq in Hne.
  induction hs as [|[k w] hs IH]; cbn [set_field lookup_field].
  - rewrite Hne. reflexivity.
  - destruct (String.eqb_spec k key) as [->|_]; cbn [lookup_field].
    + rewrite Hne. reflexivity.
    + rewrite IH. reflexivity.
Qed.

(** Writing one header does not change what is read for another. *)
Lemma headerValue_set_field_other (hs : obj) (key name : string) (v : value) :
  toLowerCase key <> name ->
  headerValue (set_field hs key v) name = headerValue hs name.
Proof.
  intros Hne. apply String.eqb_neq in Hne.
  induction hs as [|[k w] hs IH]; cbn [set_field headerValue].
  - rewrite Hne. reflexivity.
  - destruct (String.eqb_spec k key) as [->|_]; cbn [headerValue].
    + rewrite Hne. reflexivity.
    + rewrite IH. reflexivity.
Qed.

Lemma headerValue_set_field_absent (hs : obj) (name : string) (v : value) :
  toLowerCase name = name ->
  headerValue hs name = None ->
  headerValue (set_field hs name v) name = Some v.
Proof.
  intros Hlow Hnone. rewrite (set_field_absent hs name v Hlow Hnone).
  induction hs as [|[k w] hs IH]; cbn [app headerValue].
  - rewrite Hlow, String.eqb_refl. reflexivity.
  - cbn [headerValue] in Hnone.
    destruct (String.eqb (toLowerCase k) name); [discriminate|].
    apply IH, Hnone.
Qed.

Section Headers.
Context `{P : Platform}.

Lemma serialize_run (l : loc) (data : value) (st : state) (hs : obj) :
  heap st !! l = Some hs ->
  serialize l data st
  = match headerValue hs CONTENT_TYPE_HEADER with
    | Some (VStr t) =>
        if String.eqb t JSON_MEDIA_TYPE then
          (Ok (VStr (JSON_stringify data)), st)
        else if String.eqb t FORM_MEDIA_TYPE then
          (Ok (VStr (querystring_stringify data)), st)
        else (Throw (TypeError ("Unsuported media type: " ++ t
                                  ++ ". Cannot serialize object.")), st)
    | None | Some VNull =>
        (Ok (VStr (JSON_stringify data)),
         {| heap := <[l := set_field hs CONTENT_TYPE_HEADER
                              (VStr JSON_MEDIA_TYPE)]> (heap st);
            trace := trace st |})
    | Some ty =>
        (Throw (TypeError ("Unsuported media type: " ++ to_string ty
                             ++ ". Cannot serialize object.")), st)
    end.
Proof.
  intros Hl. unfold serialize. rewrite bind_run. cbn [read]. rewrite Hl.
  cbn [default from_option id].
  destruct (headerValue hs CONTENT_TYPE_HEADER) as [[| | | |t| | |]|];
    try reflexivity;
    try (rewrite bind_run; unfold assign; rewrite Hl; reflexivity).
  destruct (String.eqb t JSON_MEDIA_TYPE); [reflexivity|].
  destruct (String.eqb t FORM_MEDIA_TYPE); reflexivity.
Qed.

Lemma setContentLength_run (l : loc) (d : value) (st : state) (hs : obj) :
  heap st !! l = Some hs ->
  setContentLength l d st
  = (Ok tt, {| heap := <[l := withContentLength hs d]> (heap st);
               trace := trace st |}).
Proof.
  intros Hl.
  assert (Hid : (Ok tt, st)
                = (Ok tt, {| heap := <[l := hs]> (heap st);
                             trace := trace st |}) :> result unit * state)
    by (rewrite (list_insert_id _ _ _ Hl); destruct st; reflexivity).
  unfold setContentLength, withContentLength.
  destruct d; try exact Hid.
  rewrite bind_run. cbn [read]. rewrite Hl. cbn [default from_option id].
  destruct (isNull (headerValue hs CONTENT_LENGTH_HEADER)); [|exact Hid].
  unfold assign. rewrite Hl. reflexivity.
Qed.

(** From the serialized body [d] to the end of [request]. *)
Lemma after_serialize (this : HttpService) (m : string)
    (path : option string) (l : loc) (X : M value) (st st1 : state)
    (d : value) (hs1 : obj) :
  X st = (Ok d, st1) ->
  heap st1 !! l = Some hs1 ->
  isString d || isBuffer d = true ->
  ((X ≫= fun d => setContentLength l d ≫= fun _ => mret d)
     ≫= fun d => send this m path l d) st
  = (Ok tt,
     {| heap := <[l := withContentLength hs1 d]> (heap st1);
        trace := trace st1
                 ++ [ClientRequest (mergedOptions this m path l)
                                   (withContentLength hs1 d);
                     Write d; End] |}).
Proof.
  intros HX Hl Hd.
  rewrite !bind_run, HX, bind_run, (setContentLength_run l d st1 hs1 Hl).
  cbn [mret M_ret]. rewrite send_run. cbn [heap trace].
  rewrite list_lookup_insert_eq by (eapply lookup_lt_Some, Hl).
  cbn [default from_option id]. rewrite Hd.
  destruct d; try discriminate Hd; reflexivity.
Qed.
Lemma request_unfold (this : HttpService) (method : string)
    (path : option string) (l : loc) (data : value) (st : state) :
  notNull data = true ->
  request this method path (Some l) data st
  = (((if isObject data && negb (isBuffer data)
       then serialize l data else mret data)
        ≫= fun d => setContentLength l d ≫= fun _ => mret d)
       ≫= fun d => send this (toUpperCase method) path l d) st.
Proof.
  intros Hn. unfold request. rewrite bind_run. cbn [mret M_ret].
  rewrite Hn. reflexivity.
Qed.

(** A supported declared type: the serialization returns a string and
    does not touch the content length. *)
Lemma serialize_supported (l : loc) (data : value) (st : state) (hs : obj) :
  heap st !! l = Some hs ->
  isObject data && negb (isBuffer data) = true ->
  sendsString hs data = true ->
  exists s st1 hs1,
    serialize l data st = (Ok (VStr s), st1)
    /\ heap st1 !! l = Some hs1
    /\ trace st1 = trace st
    /\ headerValue hs1 CONTENT_LENGTH_HEADER
       = headerValue hs CONTENT_LENGTH_HEADER.
Proof.
  intros Hl Hobj Hsend.
  assert (Hs : match headerValue hs CONTENT_TYPE_HEADER with
               | None | Some VNull => true
               | Some (VStr t) =>
                   String.eqb t JSON_MEDIA_TYPE
                   || String.eqb t FORM_MEDIA_TYPE
               | Some _ => false
               end = true)
    by (destruct data; try discriminate Hobj; exact Hsend).
  rewrite (serialize_run l data st hs Hl).
  assert (Hlt : (l < length (heap st))%nat) by (eapply lookup_lt_Some, Hl).
  assert (Hadd : exists hs1,
             <[l := set_field hs CONTENT_TYPE_HEADER (VStr JSON_MEDIA_TYPE)]>
               (heap st) !! l = Some hs1
             /\ headerValue hs1 CONTENT_LENGTH_HEADER
                = headerValue hs CONTENT_LENGTH_HEADER).
  { eexists. split; [apply list_lookup_insert_eq, Hlt|].
    apply headerValue_set_field_other. discriminate. }
  destruct (headerValue hs CONTENT_TYPE_HEADER) as [[| | | |t| | |]|];
    try discriminate Hs.
  - destruct Hadd as (hs1 & H1 & H2).
    exists (JSON_stringify data). eexists. exists hs1.
    split; [reflexivity|]. cbn [heap trace]. auto.
  - destruct (String.eqb t JSON_MEDIA_TYPE).
    + exists (JSON_stringify data), st, hs. auto.
    + destruct (String.eqb t FORM_MEDIA_TYPE); [|discriminate Hs].
      exists (querystring_stringify data), st, hs. auto.
  - destruct Hadd as (hs1 & H1 & H2).
    exists (JSON_stringify data). eexists. exists hs1.
    split; [reflexivity|]. cbn [heap trace]. auto.
Qed.

(** The content length, for a headers object given by the caller. *)
Lemma content_length_given (this : HttpService) (method : string)
    (path : option string) (l : loc) (data : value) (st : state) (hs : obj) :
  heap st !! l = Some hs ->
  headerValue hs CONTENT_LENGTH_HEADER = None ->
  (sendsString hs data = true ->
   exists s sent st',
     request this method path (Some l) data st = (Ok tt, st')
     /\ trace st'
        = (trace st
           ++ [ClientRequest (mergedOptions this (toUpperCase method) path l)
                             sent;
               Write (VStr s); End])%list
     /\ headerValue sent CONTENT_LENGTH_HEADER
        = Some (VNum (Buffer_byteLength s))
     /\ heap st' !! l = Some sent)
  /\ (isBuffer data = true ->
      request this method path (Some l) data st
      = (Ok tt,
         {| heap := heap st;
            trace := trace st
                     ++ [ClientRequest
                           (mergedOptions this (toUpperCase method) path l) hs;
                         Write data; End] |})).
Proof.
  intros Hl Hcl. split.
  - intros Hsend.
    assert (Hgen : exists s st1 hs1,
               (if isObject data && negb (isBuffer data)
                then serialize l data else mret data) st
               = (Ok (VStr s), st1)
               /\ heap st1 !! l = Some hs1
               /\ trace st1 = trace st
               /\ headerValue hs1 CONTENT_LENGTH_HEADER = None).
    { destruct (isObject data && negb (isBuffer data)) eqn:Hobj.
      - destruct (serialize_supported l data st hs Hl Hobj Hsend)
          as (s & st1 & hs1 & H1 & H2 & H3 & H4).
        exists s, st1, hs1. rewrite H4. auto.
      - destruct data; try discriminate Hsend; try discriminate Hobj.
        exists s, st, hs. auto. }
    destruct Hgen as (s & st1 & hs1 & HX & Hl1 & Htr & Hcl1).
    assert (Hn : notNull data = true)
      by (destruct data; try discriminate Hsend; reflexivity).
    rewrite (request_unfold this method path l data st Hn).
    rewrite (after_serialize this (toUpperCase method) path l _ st st1
               (VStr s) hs1 HX Hl1 eq_refl).
    exists s, (withContentLength hs1 (VStr s)). eexists.
    split; [reflexivity|]. cbn [trace heap]. rewrite Htr.
    split; [reflexivity|]. split.
    + unfold withContentLength. rewrite Hcl1. cbn [isNull].
      apply headerValue_set_field_absent; [reflexivity|exact Hcl1].
    + apply list_lookup_insert_eq. eapply lookup_lt_Some, Hl1.
  - intros Hbuf. destruct data; try discriminate Hbuf.
    rewrite (request_unfold this method path l (VBuf bytes) st eq_refl).
    cbn [isObject isBuffer andb negb].
    rewrite (after_serialize this (toUpperCase method) path l
               (mret (VBuf bytes)) st st (VBuf bytes) hs eq_refl Hl eq_refl).
    cbn [withContentLength]. rewrite (list_insert_id _ _ _ Hl). reflexivity.
Qed.

Lemma request_resolved (this : HttpService) (method : string)
    (path : option string) (headers : option loc) (data : value)
    (st st0 : state) (l : loc) :
  headers_object st headers l st0 ->
  request this method path headers data st
  = request this method path (Some l) data st0
  /\ trace st0 = trace st.
Proof. intros [l'|]; split; reflexivity. Qed.

(** C8 (amended): when the headers object of the request ([null] stands
    for a fresh empty one) has no content length and the body is a string
    once serialized, [request] returns, the object handed to the transport
    carries [content-length] equal to the byte length of the string
    written, and that object is the one in the store.  For a [Buffer] no
    content length is computed: the transport is called with the headers
    as they were. *)
Theorem content_length_of_body (this : HttpService) (method : string)
    (path : option string) (headers : option loc) (data : value)
    (st st0 : state) (l : loc) (hs : obj) :
  headers_object st headers l st0 ->
  heap st0 !! l = Some hs ->
  headerValue hs CONTENT_LENGTH_HEADER = None ->
  (sendsString hs data = true ->
   exists s sent st',
     request this method path headers data st = (Ok tt, st')
     /\ trace st'
        = (trace st
           ++ [ClientRequest (mergedOptions this (toUpperCase method) path l)
                             sent;
               Write (VStr s); End])%list
     /\ headerValue sent CONTENT_LENGTH_HEADER
        = Some (VNum (Buffer_byteLength s))
     /\ heap st' !! l = Some sent)
  /\ (isBuffer data = true ->
      request this method path headers data st
      = (Ok tt,
         {| heap := heap st0;
            trace := trace st
                     ++ [ClientRequest
                           (mergedOptions this (toUpperCase method) path l) hs;
                         Write data; End] |})).
Proof.
  intros Hres Hl Hcl.
  destruct (request_resolved this method path headers data st st0 l Hres)
    as (-> & <-).
  exact (content_length_given this method path l data st0 hs Hl Hcl).
Qed.

(** C10 (amended): for an object body and caller's headers without a
    content type, [request] returns and the caller's own object, at the
    same reference that the transport receives, has gained
    [content-type: application/json]; it has also gained
    [content-length] with the byte length of the JSON text when it had
    no content length, and keeps the caller's content length
    otherwise.  No other object is allocated. *)
Theorem request_mutates_caller_headers (this : HttpService)
    (method : string) (path : option string) (l : loc) (data : value)
    (st : state) (hs : obj) :
  heap st !! l = Some hs ->
  isObject data && negb (isBuffer data) = true ->
  headerValue hs CONTENT_TYPE_HEADER = None ->
  let s := JSON_stringify data in
  let typed := (hs ++ [(CONTENT_TYPE_HEADER, VStr JSON_MEDIA_TYPE)])%list in
  let sent :=
    if isNull (headerValue hs CONTENT_LENGTH_HEADER)
    then set_field typed CONTENT_LENGTH_HEADER (VNum (Buffer_byteLength s))
    else typed in
  request this method path (Some l) data st
  = (Ok tt,
     {| heap := <[l := sent]> (heap st);
        trace := trace st
                 ++ [ClientRequest
                       (mergedOptions this (toUpperCase method) path l) sent;
                     Write (VStr s); End] |})
  /\ <[l := sent]> (heap st) !! l = Some sent
  /\ length (<[l := sent]> (heap st)) = length (heap st)
  /\ lookup_field sent CONTENT_TYPE_HEADER = VStr JSON_MEDIA_TYPE
  /\ (headerValue hs CONTENT_LENGTH_HEADER = None ->
      sent = (hs ++ [(CONTENT_TYPE_HEADER, VStr JSON_MEDIA_TYPE);
                     (CONTENT_LENGTH_HEADER, VNum (Buffer_byteLength s))])%list).
Proof.
  intros Hl Hobj Hct s typed sent.
  assert (Hlt : (l < length (heap st))%nat) by (eapply lookup_lt_Some, Hl).
  assert (Htyped : set_field hs CONTENT_TYPE_HEADER (VStr JSON_MEDIA_TYPE)
                   = typed)
    by (apply set_field_absent; [reflexivity|exact Hct]).
  assert (Hcl : headerValue typed CONTENT_LENGTH_HEADER
                = headerValue hs CONTENT_LENGTH_HEADER)
    by (rewrite <- Htyped; apply headerValue_set_field_other; discriminate).
  assert (Hsent : withContentLength typed (VStr s) = sent)
    by (unfold withContentLength, sent; rewrite Hcl; reflexivity).
  split; [|split; [|split; [|split]]].
  - assert (Hn : notNull data = true)
      by (destruct data; try discriminate Hobj; reflexivity).
    rewrite (request_unfold this method path l data st Hn), Hobj.
    rewrite (after_serialize this (toUpperCase method) path l _ st
               {| heap := <[l := typed]> (heap st); trace := trace st |}
               (VStr s) typed).
    + cbn [heap trace]. rewrite Hsent, list_insert_insert_eq. reflexivity.
    + rewrite (serialize_run l data st hs Hl), Hct, Htyped. reflexivity.
    + cbn [heap]. apply list_lookup_insert_eq, Hlt.
    + reflexivity.
  - apply list_lookup_insert_eq, Hlt.
  - apply length_insert.
  - unfold sent.
    assert (Ht : lookup_field typed CONTENT_TYPE_HEADER = VStr JSON_MEDIA_TYPE)
      by (rewrite <- Htyped; apply lookup_set_field).
    destruct (isNull (headerValue hs CONTENT_LENGTH_HEADER)); [|exact Ht].
    rewrite lookup_set_field_other by discriminate. exact Ht.
  - intros Hnone. unfold sent. rewrite Hnone. cbn [isNull].
    rewrite set_field_absent; [|reflexivity|rewrite Hcl; exact Hnone].
    unfold typed. rewrite <- app_assoc. reflexivity.
Qed.
End Headers.

(** C8, as stated, at a [Buffer] body and empty headers: the transport is
    called with headers that have no content length. *)
Lemma request_buffer_without_content_length :
  request (P := Node.platform) Sample.service "post" (Some "post") (Some 0%nat)
    (VBuf (Sample.bytes "abc")) (Sample.store [])
  = (Ok tt,
     {| heap := [[]];
        trace := [ClientRequest (Sample.options "POST" "post" 0%nat) [];
                  Write (VBuf (Sample.bytes "abc")); End] |})
  /\ headerValue ([] : obj) CONTENT_LENGTH_HEADER
     <> Some (VNum (Z.of_nat (length (Sample.bytes "abc")))).
Proof. split; [reflexivity|discriminate]. Qed.

Lemma content_length_of_body_witness :
  let hs : obj := [("Accept", VStr "*/*")] in
  let st := Sample.store hs in
  headers_object st (Some 0%nat) 0%nat st
  /\ heap st !! 0%nat = Some hs
  /\ headerValue hs CONTENT_LENGTH_HEADER = None
  /\ sendsString hs (VStr "hello") = true
  /\ exists s sent st',
      request (P := Node.platform) Sample.service "post" (Some "post")
        (Some 0%nat) (VStr "hello") st = (Ok tt, st')
      /\ trace st'
         = (trace st
            ++ [ClientRequest
                  (mergedOptions Sample.service (toUpperCase "post")
                     (Some "post") 0%nat) sent;
                Write (VStr s); End])%list
      /\ headerValue sent CONTENT_LENGTH_HEADER
         = Some (VNum (Buffer_byteLength s))
      /\ heap st' !! 0%nat = Some sent.
Proof.
  split; [apply caller_object|].
  repeat (split; [reflexivity|]).
  apply (content_length_of_body (P := Node.platform) Sample.service "post"
           (Some "post") (Some 0%nat) (VStr "hello")
           (Sample.store [("Accept", VStr "*/*")])
           (Sample.store [("Accept", VStr "*/*")]) 0%nat
           [("Accept", VStr "*/*")]
           (caller_object _ 0%nat) eq_refl eq_refl).
  reflexivity.
Defined.

Example post_sets_type_and_length :
  Convenience.post (P := Node.platform) Sample.service "post"
    (VObj [("a", VNum 1)]) {| heap := []; trace := [] |}
  = (Ok tt,
     {| heap := [[("content-type", VStr "application/json");
                  ("content-length", VNum 7)]];
        trace := [ClientRequest (Sample.options "POST" "post" 0%nat)
                    [("content-type", VStr "application/json");
                     ("content-length", VNum 7)];
                  Write (VStr (Sample.json "{'a':1}")); End] |}).
Proof. reflexivity. Qed.

(** C10, as stated, at headers that carry a content length: the caller's
    object gains the content type, but no computed content length. *)
Lemma request_keeps_caller_content_length :
  let data := VObj [("a", VNum 1)] in
  exists st',
    request (P := Node.platform) Sample.service "post" (Some "post")
      (Some 0%nat) data (Sample.store [("Content-Length", VStr "5")])
    = (Ok tt, st')
    /\ heap st' !! 0%nat
       = Some [("Content-Length", VStr "5");
               ("content-type", VStr "application/json")]
    /\ Buffer_byteLength (JSON_stringify data) = 7.
Proof. eexists. repeat split. Qed.

Lemma request_mutates_caller_headers_witness :
  let hs : obj := [("Accept", VStr "*/*")] in
  let data := VObj [("a", VNum 1)] in
  heap (Sample.store hs) !! 0%nat = Some hs
  /\ isObject data && negb (isBuffer data) = true
  /\ headerValue hs CONTENT_TYPE_HEADER = None
  /\ exists st',
      request (P := Node.platform) Sample.service "post" (Some "post")
        (Some 0%nat) data (Sample.store hs) = (Ok tt, st')
      /\ heap st' !! 0%nat
         = Some [("Accept", VStr "*/*");
                 ("content-type", VStr "application/json");
                 ("content-length", VNum 7)].
Proof.
  repeat (split; [reflexivity|]).
  destruct (request_mutates_caller_headers (P := Node.platform) Sample.service
              "post" (Some "post") 0%nat (VObj [("a", VNum 1)])
              (Sample.store [("Accept", VStr "*/*")]) [("Accept", VStr "*/*")]
              eq_refl eq_refl eq_refl) as (Hrun & Hread & _).
  eexists. split; [exact Hrun|exact Hread].
Defined.

(** ** Completion: the second draft *)

Section Outcome.
Context `{P : Platform}.
Import OutcomeObj.

Lemma toString_buffer (b : list byte) :
  toString (VBuf b) = Ok (Buffer_toString b).
Proof. reflexivity. Qed.

(** A JSON body that does not parse makes [_parseBody] throw, whatever
    the status made of [body]. *)
Lemma parseBody_json_throws (noContent : bool) (b : list byte) (m : string) :
  JSON_parse (Buffer_toString b) = inl m ->
  exists e,
    parseBody (Some JSON_MEDIA_TYPE) (if noContent then VNull else VBuf b)
    = Throw e.
Proof.
  intros Hm. unfold parseBody. rewrite String.eqb_refl.
  destruct noContent; cbn [toString rbind]; [eexists; reflexivity|].
  cbn [to_string]. unfold parseJSON. rewrite Hm. eexists; reflexivity.
Qed.

(** A JSON text that [JSON.parse] rejects: the callback receives the
    parse error and the unparsed body, whatever the status. *)
Lemma rejected_json_is_parse_failure (options : RequestOptions.t)
  (statusCode : Z) (headers : response_headers)
  (chunks : list (list byte)) (m : string) :
  removeParams (headerValue headers CONTENT_TYPE_HEADER)
  = Some JSON_MEDIA_TYPE ->
  JSON_parse (Buffer_toString (concat chunks)) = inl m ->
  exists text body,
    on_end options statusCode headers chunks
    = Callback
        (Some (Error (target options ++ " Parse Error: " ++ text)))
        (Some {| status := statusCode; headers := headers;
                 type := Some JSON_MEDIA_TYPE; body := body |})
    /\ (body = VNull \/ body = VBuf (concat chunks)).
Proof.
  intros Htype Hm. unfold on_end. rewrite Htype.
  destruct (parseBody_json_throws (status_noContent statusCode)
              (concat chunks) m Hm) as (e & ->).
  exists (message e). eexists. split; [reflexivity|].
  destruct (status_noContent statusCode); [left|right]; reflexivity.
Qed.

(** C6: on a platform whose [JSON.parse] rejects the empty text, when the
    normalized content type is [application/json] and the buffered body
    is the empty text or a text that [JSON.parse] rejects, the callback
    receives an [Error] whose message is the target followed by
    [Parse Error: ...], never the error of the status, whatever the
    status code; the record's body is the unparsed one. *)
Theorem parse_failure_precedes_status (options : RequestOptions.t)
  (statusCode : Z) (headers : response_headers)
  (chunks : list (list byte)) :
  removeParams (headerValue headers CONTENT_TYPE_HEADER)
  = Some JSON_MEDIA_TYPE ->
  (exists m, JSON_parse EmptyString = inl m) ->
  Buffer_toString (concat chunks) = EmptyString
  \/ (exists m, JSON_parse (Buffer_toString (concat chunks)) = inl m) ->
  exists text body,
    on_end options statusCode headers chunks
    = Callback
        (Some (Error (target options ++ " Parse Error: " ++ text)))
        (Some {| status := statusCode; headers := headers;
                 type := Some JSON_MEDIA_TYPE; body := body |})
    /\ (body = VNull \/ body = VBuf (concat chunks))
    /\ succeeded (on_end options statusCode headers chunks) = false.
Proof.
  intros Htype (m0 & Hempty) Hbody.
  assert (Hm : exists m, JSON_parse (Buffer_toString (concat chunks)) = inl m).
  { destruct Hbody as [Hnil|Hbad]; [|exact Hbad].
    exists m0. rewrite Hnil. exact Hempty. }
  destruct Hm as (m & Hm).
  destruct (rejected_json_is_parse_failure options statusCode headers chunks
              m Htype Hm) as (text & body & Hrun & Hb).
  exists text, body. rewrite Hrun. auto.
Qed.

(** C1 (amended): a response that has arrived always reaches the
    callback as a record of the status, the unmodified headers, the
    normalized type and the resolved body, next to the error slot and
    also when that slot is not null; the resolved body is what
    [_parseBody] returned, or the buffered body ([null] under a
    no-content status) when it threw.  The slot is null exactly when the
    body was parsed and the status is not an error.  Only an ['error']
    event of the transport is delivered as the error alone. *)
Theorem complete_delivers_record (options : RequestOptions.t) (r : reply) :
  match r with
  | Failed err => complete options r = Callback (Some err) None
  | Responded statusCode headers chunks =>
      let type := removeParams (headerValue headers CONTENT_TYPE_HEADER) in
      let buffered :=
        if status_noContent statusCode then VNull
        else VBuf (concat chunks) in
      exists err,
        complete options r
        = Callback err
            (Some {| status := statusCode; headers := headers; type := type;
                     body := match parseBody type buffered with
                             | Ok parsed => parsed
                             | Throw _ => buffered
                             end |})
        /\ (err = None <->
            status_isError statusCode = false
            /\ exists parsed, parseBody type buffered = Ok parsed)
  end.
Proof.
  destruct r as [statusCode headers chunks|err]; [|reflexivity].
  cbv zeta. cbn [complete]. unfold on_end.
  destruct (parseBody _ _) as [parsed|e].
  - destruct (status_isError statusCode).
    + destruct (parseError _ parsed) as [txt|e];
        eexists; (split; [reflexivity|]);
        (split; [discriminate|intros [H _]; discriminate H]).
    + eexists. split; [reflexivity|]. split; [|reflexivity].
      intros _. split; [reflexivity|]. exists parsed. reflexivity.
  - eexists. split; [reflexivity|].
    split; [discriminate|intros [_ [parsed H]]; discriminate H].
Qed.
End Outcome.

(** C1, as stated, at the test file's request for status 418: the callback
    receives a non-null error and, in the same invocation, the response
    with its body. *)
Lemma teapot_error_with_body :
  OutcomeObj.complete (P := Node.platform)
    (Sample.options "GET" "status/418" 0%nat)
    (Responded 418 [("content-type", "text/plain")] [Sample.bytes "teapot"])
  = OutcomeObj.Callback
      (Some (HttpError 418 "[GET http://httpbin.org:80/status/418]"))
      (Some {| OutcomeObj.status := 418;
               OutcomeObj.headers := [("content-type", "text/plain")];
               OutcomeObj.type := Some "text/plain";
               OutcomeObj.body := VStr "teapot" |})
  /\ error_alone
       (OutcomeObj.complete (P := Node.platform)
          (Sample.options "GET" "status/418" 0%nat)
          (Responded 418 [("content-type", "text/plain")]
             [Sample.bytes "teapot"]))
     = false.
Proof. split; reflexivity. Qed.

Lemma parse_failure_precedes_status_witness :
  removeParams (headerValue Sample.json_type CONTENT_TYPE_HEADER)
  = Some JSON_MEDIA_TYPE
  /\ (exists m, @JSON_parse Node.platform EmptyString = inl m)
  /\ (@Buffer_toString Node.platform (concat []) = EmptyString
      \/ exists m,
           @JSON_parse Node.platform (@Buffer_toString Node.platform (concat []))
           = inl m)
  /\ exists text body,
      OutcomeObj.on_end (P := Node.platform) (Sample.options "GET" "get" 0%nat)
        200 Sample.json_type []
      = OutcomeObj.Callback
          (Some (Error (target (Sample.options "GET" "get" 0%nat)
                          ++ " Parse Error: " ++ text)))
          (Some {| OutcomeObj.status := 200;
                   OutcomeObj.headers := Sample.json_type;
                   OutcomeObj.type := Some JSON_MEDIA_TYPE;
                   OutcomeObj.body := body |})
      /\ (body = VNull \/ body = VBuf (concat []))
      /\ succeeded
           (OutcomeObj.on_end (P := Node.platform)
              (Sample.options "GET" "get" 0%nat) 200 Sample.json_type [])
         = false.
Proof.
  split; [reflexivity|].
  split; [eexists; reflexivity|].
  split; [left; reflexivity|].
  apply (parse_failure_precedes_status (P := Node.platform)
           (Sample.options "GET" "get" 0%nat) 200 Sample.json_type []).
  - reflexivity.
  - eexists; reflexivity.
  - left; reflexivity.
Defined.

(** C2: in the second draft a 204 response that declares
    [application/json] is handed to [_parseBody] with a [null] body;
    [null.toString()] throws and the callback receives a parse error, not
    a success. *)
Example no_content_json_is_parse_failure :
  OutcomeObj.on_end (P := Node.platform)
    (Sample.options "DELETE" "items/1" 0%nat) 204 Sample.json_type []
  = OutcomeObj.Callback
      (Some (Error "[DELETE http://httpbin.org:80/items/1] Parse Error: Cannot read properties of null (reading 'toString')"))
      (Some {| OutcomeObj.status := 204;
               OutcomeObj.headers := Sample.json_type;
               OutcomeObj.type := Some "application/json";
               OutcomeObj.body := VNull |}).
Proof. reflexivity. Qed.

(** C3: in the second draft [_parseError] finds [error.message] and then
    reads the unbound [callback]; the [ReferenceError] is caught and the
    callback receives a plain [Error] that carries neither the code 401
    nor the text of the server. *)
Example bad_token_is_reference_error :
  OutcomeObj.on_end (P := Node.platform)
    (Sample.options "GET" "me" 0%nat) 401 Sample.json_type
    [Sample.bytes Sample.bad_token]
  = OutcomeObj.Callback
      (Some (Error "[GET http://httpbin.org:80/me] Parse Error: callback is not defined"))
      (Some {| OutcomeObj.status := 401;
               OutcomeObj.headers := Sample.json_type;
               OutcomeObj.type := Some "application/json";
               OutcomeObj.body :=
                 VObj [("error", VObj [("message", VStr "bad token")])] |})
  /\ Sample.includes
       "[GET http://httpbin.org:80/me] Parse Error: callback is not defined"
       "bad token" = false.
Proof. split; reflexivity. Qed.

(** C4: the ['end'] handler of the second draft does not look at the
    method; the response to a HEAD request that declares
    [application/json] is parsed like any other, and its empty body is a
    parse error with the empty [Buffer] as body. *)
Example head_json_is_parse_failure :
  OutcomeObj.on_end (P := Node.platform)
    (Sample.options "HEAD" "get" 0%nat) 200 Sample.json_type []
  = OutcomeObj.Callback
      (Some (Error "[HEAD http://httpbin.org:80/get] Parse Error: Unexpected end of JSON input"))
      (Some {| OutcomeObj.status := 200;
               OutcomeObj.headers := Sample.json_type;
               OutcomeObj.type := Some "application/json";
               OutcomeObj.body := VBuf [] |}).
Proof. reflexivity. Qed.

(** ** The defects of the second draft, on any platform *)

Section Defects.
Context `{P : Platform}.
Import OutcomeObj.

(** A no-content status with a JSON or text type: [_parseBody] calls
    [toString] on [null]. *)
Lemma no_content_parse_failure (options : RequestOptions.t) (statusCode : Z)
    (headers : response_headers) (chunks : list (list byte)) (t : string) :
  status_noContent statusCode = true ->
  removeParams (headerValue headers CONTENT_TYPE_HEADER) = Some t ->
  String.eqb t JSON_MEDIA_TYPE
  || truthy_string t && (startsWith t "text/" || endsWith t "+xml") = true ->
  on_end options statusCode headers chunks
  = Callback
      (Some (Error (target options
                      ++ " Parse Error: Cannot read properties of null (reading 'toString')")))
      (Some {| status := statusCode; headers := headers; type := Some t;
               body := VNull |}).
Proof.
  intros Hnc Htype Ht. unfold on_end. rewrite Hnc, Htype.
  unfold parseBody.
  destruct (String.eqb t JSON_MEDIA_TYPE); [reflexivity|].
  cbn [orb] in Ht. rewrite Ht. reflexivity.
Qed.

(** An [error] object with a truthy [message], and no
    [error_description]: [_parseError] reads the unbound [callback]. *)
Lemma parseError_unbound_callback (body e m : value) :
  getProp body "error_description" = Ok VUndefined ->
  getProp body "error" = Ok e ->
  truthy e = true ->
  getProp e "message" = Ok m ->
  truthy m = true ->
  parseError (Some JSON_MEDIA_TYPE) body
  = Throw (ReferenceError "callback is not defined").
Proof.
  intros Hd He Hte Hm Htm. unfold parseError. rewrite String.eqb_refl.
  cbn [negb]. rewrite Hd. cbn [rbind truthy]. rewrite He. cbn [rbind].
  unfold andProp. rewrite Hte, Hm. cbn [rbind]. rewrite Htm. reflexivity.
Qed.

(** The method plays no part in what the ['end'] handler resolves. *)
Lemma on_end_ignores_method (options : RequestOptions.t) (m : string)
    (statusCode : Z) (headers : response_headers)
    (chunks : list (list byte)) :
  delivered (on_end (with_method m options) statusCode headers chunks)
  = delivered (on_end options statusCode headers chunks)
  /\ succeeded (on_end (with_method m options) statusCode headers chunks)
     = succeeded (on_end options statusCode headers chunks).
Proof.
  unfold on_end.
  destruct (parseBody _ _) as [parsed|e]; [|split; reflexivity].
  destruct (status_isError statusCode); [|split; reflexivity].
  destruct (parseError _ parsed); split; reflexivity.
Qed.
End Defects.

(** ** Completion: the first draft *)

Section FirstDraft.
Context `{P : Platform}.
Import FourArg.

(** Status 204 returns at once with no body and no type (lines
    178-180). *)
Lemma no_content_success (options : RequestOptions.t)
    (headers : response_headers) (chunks : list (list byte)) :
  on_end options 204 headers chunks = Ok (Success VNull None headers).
Proof. reflexivity. Qed.

(** X24: for HEAD the body is [null] and nothing is parsed (lines 184-185). *)
Lemma head_body_absent (options : RequestOptions.t) (statusCode : Z)
    (headers : response_headers) (chunks : list (list byte)) :
  RequestOptions.method options = "HEAD" ->
  statusCode <> 204 ->
  on_end options statusCode headers chunks
  = Ok (if (statusCode =? 200) || (statusCode =? 201)
        then Success VNull
               (removeParams (headerValue headers CONTENT_TYPE_HEADER))
               headers
        else Failure (httpError statusCode options
                        (VStr "The request was not successfully completed."))).
Proof.
  intros Hm Hs. unfold on_end. apply Z.eqb_neq in Hs. rewrite Hs, Hm.
  cbn [String.eqb Ascii.eqb Bool.eqb rbind].
  destruct ((statusCode =? 200) || (statusCode =? 201)); reflexivity.
Qed.

(** The message of an [error] object is handed over with the status
    code (lines 201-204). *)
Lemma error_message_reported (options : RequestOptions.t) (statusCode : Z)
    (headers : response_headers) (chunks : list (list byte))
    (body e m : value) :
  statusCode <> 204 ->
  RequestOptions.method options <> "HEAD" ->
  removeParams (headerValue headers CONTENT_TYPE_HEADER)
  = Some JSON_MEDIA_TYPE ->
  truthy_string (Buffer_toString (concat chunks)) = true ->
  JSON_parse (Buffer_toString (concat chunks)) = inr body ->
  getProp body "error_description" = Ok VUndefined ->
  getProp body "error" = Ok e ->
  truthy e = true ->
  getProp e "message" = Ok m ->
  truthy m = true ->
  on_end options statusCode headers chunks
  = Ok (Failure (HttpError statusCode (target options ++ " " ++ to_string m))).
Proof.
  intros Hs Hm Htype Htext Hparse Hd He Hte Hmsg Htm.
  unfold on_end. apply Z.eqb_neq in Hs. apply String.eqb_neq in Hm.
  rewrite Hs, Hm, Htype. cbn [String.eqb Ascii.eqb Bool.eqb].
  rewrite Htext, Hparse. cbn [negb]. unfold errorShapes.
  rewrite Hd. cbn [rbind truthy]. rewrite He. cbn [rbind].
  unfold andProp. rewrite Hte, Hmsg. cbn [rbind]. rewrite Htm. reflexivity.
Qed.

(** X25: an empty or rejected JSON text is reported with code 502, before
    the status is looked at (lines 186-195). *)
Lemma parse_failure_is_502 (options : RequestOptions.t) (statusCode : Z)
    (headers : response_headers) (chunks : list (list byte)) (m : string) :
  statusCode <> 204 ->
  RequestOptions.method options <> "HEAD" ->
  removeParams (headerValue headers CONTENT_TYPE_HEADER)
  = Some JSON_MEDIA_TYPE ->
  JSON_parse (Buffer_toString (concat chunks)) = inl m ->
  exists text,
    on_end options statusCode headers chunks
    = Ok (Failure (HttpError 502 (target options ++ " " ++ text))).
Proof.
  intros Hs Hm Htype Hparse.
  unfold on_end. apply Z.eqb_neq in Hs. apply String.eqb_neq in Hm.
  rewrite Hs, Hm, Htype. cbn [String.eqb Ascii.eqb Bool.eqb].
  destruct (truthy_string (Buffer_toString (concat chunks)));
    cbn [negb]; [rewrite Hparse|]; eexists; reflexivity.
Qed.
End FirstDraft.

Example first_draft_bad_token :
  FourArg.on_end (P := Node.platform) (Sample.options "GET" "me" 0%nat) 401
    Sample.json_type [Sample.bytes Sample.bad_token]
  = Ok (FourArg.Failure
          (HttpError 401 "[GET http://httpbin.org:80/me] bad token"))
  /\ Sample.includes "[GET http://httpbin.org:80/me] bad token" "bad token"
     = true.
Proof. split; reflexivity. Qed.

Example first_draft_head_json :
  FourArg.on_end (P := Node.platform) (Sample.options "HEAD" "get" 0%nat) 200
    Sample.json_type []
  = Ok (FourArg.Success VNull (Some "application/json") Sample.json_type).
Proof. reflexivity. Qed.

Example text_body_decoded :
  OutcomeObj.on_end (P := Node.platform) (Sample.options "GET" "get" 0%nat) 200
    [("content-type", "text/plain; charset=utf-8")]
    [Sample.bytes "hel"; Sample.bytes "lo"]
  = OutcomeObj.Callback None
      (Some {| OutcomeObj.status := 200;
               OutcomeObj.headers :=
                 [("content-type", "text/plain; charset=utf-8")];
               OutcomeObj.type := Some "text/plain";
               OutcomeObj.body := VStr "hello" |}).
Proof. reflexivity. Qed.

(** * Further properties *)

(** ** Strings *)

Lemma toLowerChar_idempotent (c : ascii) :
  toLowerChar (toLowerChar c) = toLowerChar c.
Proof. destruct c as [[] [] [] [] [] [] [] []]; reflexivity. Qed.

Lemma toUpperChar_idempotent (c : ascii) :
  toUpperChar (toUpperChar c) = toUpperChar c.
Proof. destruct c as [[] [] [] [] [] [] [] []]; reflexivity. Qed.

Lemma toLowerCase_idempotent (s : string) :
  toLowerCase (toLowerCase s) = toLowerCase s.
Proof.
  induction s as [|c s IH]; [reflexivity|].
  cbn. rewrite toLowerChar_idempotent. f_equal. exact IH.
Qed.

Lemma toUpperCase_idempotent (s : string) :
  toUpperCase (toUpperCase s) = toUpperCase s.
Proof.
  induction s as [|c s IH]; [reflexivity|].
  cbn. rewrite toUpperChar_idempotent. f_equal. exact IH.
Qed.

Lemma isPrefix_app (p s : string) : isPrefix p (p ++ s) = true.
Proof.
  induction p as [|c p IH]; [reflexivity|].
  cbn. rewrite Ascii.eqb_refl. exact IH.
Qed.

Lemma isPrefix_refl (p : string) : isPrefix p p = true.
Proof.
  induction p as [|c p IH]; [reflexivity|].
  cbn. rewrite Ascii.eqb_refl. exact IH.
Qed.

Lemma indexOf_app_found (a b : string) (c : ascii) :
  0 <= indexOf (a ++ String c b) c.
Proof.
  induction a as [|x a IH]; cbn.
  - rewrite Ascii.eqb_refl. lia.
  - destruct (Ascii.eqb x c); [lia|].
    destruct (indexOf (a ++ String c b) c <? 0) eqn:E; [|lia].
    apply Z.ltb_lt in E. lia.
Qed.

Lemma indexOf_app_left (a b : string) (c : ascii) :
  0 <= indexOf a c -> 0 <= indexOf (a ++ b) c.
Proof.
  induction a as [|x a IH]; cbn; [lia|].
  destruct (Ascii.eqb x c); [lia|].
  pose proof (indexOf_lower_bound a c).
  destruct (indexOf a c <? 0) eqn:E; [lia|]. intros _.
  apply Z.ltb_ge in E. specialize (IH E).
  destruct (indexOf (a ++ b) c <? 0) eqn:E2; [|lia].
  apply Z.ltb_lt in E2. lia.
Qed.

(** ** [appendQuery] *)

(** X1: a query that is a string or an object is joined to the path with
    [?] when the path has no [?] yet and with [&] otherwise; once one
    query has been appended, a second one is always joined with [&]. *)
Theorem appendQuery_twice `{P : Platform} (path : string) (q1 q2 : value)
    (s1 s2 : string) :
  queryText q1 = Some s1 ->
  queryText q2 = Some s2 ->
  appendQuery path q1
  = path ++ (if indexOf path "?" <? 0 then "?" else "&") ++ s1
  /\ appendQuery (appendQuery path q1) q2
     = appendQuery path q1 ++ "&" ++ s2.
Proof.
  assert (Hone : forall p q s, queryText q = Some s ->
            appendQuery p q
            = p ++ (if indexOf p "?" <? 0 then "?" else "&") ++ s).
  { intros p q s. unfold queryText, appendQuery.
    destruct (isObject q); [intros [= <-]; reflexivity|].
    destruct q; try discriminate. intros [= <-]. reflexivity. }
  intros H1 H2. split; [apply Hone, H1|].
  rewrite (Hone (appendQuery path q1) q2 s2 H2).
  assert (Hq : 0 <= indexOf (appendQuery path q1) "?").
  { rewrite (Hone path q1 s1 H1).
    destruct (indexOf path "?" <? 0) eqn:E.
    - apply (indexOf_app_found path s1 "?").
    - apply Z.ltb_ge in E. apply indexOf_app_left, E. }
  destruct (indexOf (appendQuery path q1) "?" <? 0) eqn:E; [|reflexivity].
  apply Z.ltb_lt in E. lia.
Qed.

Lemma appendQuery_twice_witness :
  queryText (P := Node.platform) (VObj [("a", VNum 1)]) = Some "a=1"
  /\ queryText (P := Node.platform) (VStr "b=2") = Some "b=2"
  /\ appendQuery (P := Node.platform) "get" (VObj [("a", VNum 1)])
     = "get" ++ (if indexOf "get" "?" <? 0 then "?" else "&") ++ "a=1"
  /\ appendQuery (P := Node.platform)
       (appendQuery (P := Node.platform) "get" (VObj [("a", VNum 1)]))
       (VStr "b=2")
     = appendQuery (P := Node.platform) "get" (VObj [("a", VNum 1)])
       ++ "&" ++ "b=2".
Proof.
  split; [reflexivity|]. split; [reflexivity|].
  apply (appendQuery_twice (P := Node.platform) "get"
           (VObj [("a", VNum 1)]) (VStr "b=2") "a=1" "b=2");
    reflexivity.
Defined.

(** A query that is neither an object nor a string ([null],
    [undefined], a number, a boolean) leaves the path as it is. *)
Theorem appendQuery_ignores `{P : Platform} (path : string) (query : value) :
  queryText query = None -> appendQuery path query = path.
Proof.
  unfold queryText, appendQuery.
  destruct (isObject query); [discriminate|].
  destruct query; try reflexivity. discriminate.
Qed.

Lemma appendQuery_ignores_witness :
  queryText (P := Node.platform) VUndefined = None
  /\ appendQuery (P := Node.platform) "get?x=1" VUndefined = "get?x=1".
Proof.
  split; [reflexivity|].
  apply (appendQuery_ignores (P := Node.platform) "get?x=1" VUndefined).
  reflexivity.
Defined.

(** ** [headerValue] *)

Section Lookup.
Context {V : Type}.

(** X2: header names that differ only in case are not told apart: two
    header lists with the same values under names equal up to case give
    the same answer for every name. *)
Theorem headerValue_case_insensitive (hs1 hs2 : list (string * V))
    (name : string) :
  Forall2 same_up_to_case hs1 hs2 ->
  headerValue hs1 name = headerValue hs2 name.
Proof.
  induction 1 as [|[k1 v1] [k2 v2] r1 r2 [Hk Hv] _ IH]; [reflexivity|].
  cbn in Hk, Hv. cbn [headerValue]. rewrite Hk, Hv, IH. reflexivity.
Qed.

(** The loop falls through to [return null] exactly when no name of the
    mapping is [name] once lower-cased; a value returned from the loop is
    stored under such a name. *)
Lemma headerValue_missing (hs : list (string * V)) (name : string) :
  (headerValue hs name = None
   <-> forall k v, In (k, v) hs -> toLowerCase k <> name)
  /\ (forall v, headerValue hs name = Some v ->
                exists k, In (k, v) hs /\ toLowerCase k = name).
Proof.
  induction hs as [|[k w] hs [IHn IHs]]; cbn [headerValue In].
  - split; [split; [intros _ k v []|reflexivity]|discriminate].
  - destruct (String.eqb_spec (toLowerCase k) name) as [E|E].
    + split.
      * split; [discriminate|].
        intros H. exfalso. exact (H k w (or_introl eq_refl) E).
      * intros v [= <-]. exists k. auto.
    + split.
      * rewrite IHn. split.
        -- intros H k' v' [[= <- <-]|Hin]; [exact E|exact (H k' v' Hin)].
        -- intros H k' v' Hin. apply (H k' v'). right. exact Hin.
      * intros v Hv. destruct (IHs v Hv) as (k' & Hin & Hk').
        exists k'. auto.
Qed.

(** X4: when several names match, the first one in key order wins. *)
Theorem headerValue_first_match (before after : list (string * V))
    (k name : string) (v : V) :
  headerValue before name = None ->
  toLowerCase k = name ->
  headerValue (before ++ (k, v) :: after) name = Some v.
Proof.
  intros Hb Hk. induction before as [|[k' w] before IH]; cbn [app headerValue].
  - rewrite Hk, String.eqb_refl. reflexivity.
  - cbn [headerValue] in Hb.
    destruct (String.eqb (toLowerCase k') name); [discriminate|].
    apply IH, Hb.
Qed.

(** X5: the name asked for must be in lower case: a name with an
    upper-case letter is never found, whatever the mapping holds. *)
Theorem headerValue_needs_lower_case (hs : list (string * V))
    (name : string) :
  toLowerCase name <> name -> headerValue hs name = None.
Proof.
  intros Hne. induction hs as [|[k w] hs IH]; [reflexivity|].
  cbn [headerValue].
  destruct (String.eqb_spec (toLowerCase k) name) as [E|_]; [|exact IH].
  exfalso. apply Hne. rewrite <- E. apply toLowerCase_idempotent.
Qed.
End Lookup.

(** Names that do not match are passed over. *)
Lemma headerValue_skip {V : Type} (before rest : list (string * V))
    (name : string) :
  (forall k v, In (k, v) before -> toLowerCase k <> name) ->
  headerValue (before ++ rest) name = headerValue rest name.
Proof.
  induction before as [|[k w] before IH]; intros Hno; [reflexivity|].
  cbn [app headerValue].
  destruct (String.eqb_spec (toLowerCase k) name) as [E|_].
  - exfalso. exact (Hno k w (or_introl eq_refl) E).
  - apply IH. intros k' v' Hin. apply (Hno k' v'). right. exact Hin.
Qed.

(** Where a value returned from the loop was found. *)
Lemma headerValue_found {V : Type} (hs : list (string * V)) (name : string)
    (v : V) :
  headerValue hs name = Some v ->
  exists before k after,
    hs = (before ++ (k, v) :: after)%list
    /\ (forall k' v', In (k', v') before -> toLowerCase k' <> name)
    /\ toLowerCase k = name.
Proof.
  induction hs as [|[k w] hs IH]; cbn [headerValue]; [discriminate|].
  destruct (String.eqb_spec (toLowerCase k) name) as [E|E].
  - intros [= <-]. exists [], k, hs. split; [reflexivity|].
    split; [intros k' v' []|exact E].
  - intros Hv. destruct (IH Hv) as (before & k' & after & -> & Hno & Hk).
    exists ((k, w) :: before), k', after. split; [reflexivity|].
    split; [|exact Hk].
    intros k2 v2 [[= <- <-]|Hin]; [exact E|exact (Hno k2 v2 Hin)].
Qed.

(** X3: on a mapping of values, what [headerValue] returns is [null]
    exactly when no name of the mapping is [name] once lower-cased, or
    the first such name holds [null]; any value it returns from the
    mapping is the one held by the first such name. *)
Theorem headerValue_null (hs : obj) (name : string) :
  (isNull (headerValue hs name) = true
   <-> (forall k v, In (k, v) hs -> toLowerCase k <> name)
       \/ exists before k after,
            hs = (before ++ (k, VNull) :: after)%list
            /\ (forall k' v', In (k', v') before -> toLowerCase k' <> name)
            /\ toLowerCase k = name)
  /\ (forall v, headerValue hs name = Some v ->
                exists before k after,
                  hs = (before ++ (k, v) :: after)%list
                  /\ (forall k' v', In (k', v') before
                                    -> toLowerCase k' <> name)
                  /\ toLowerCase k = name).
Proof.
  split; [|apply headerValue_found].
  split.
  - destruct (headerValue hs name) as [v|] eqn:Hv.
    + destruct v; try discriminate. intros _. right.
      apply headerValue_found, Hv.
    + intros _. left. apply (proj1 (headerValue_missing hs name)), Hv.
  - intros [Hno|(before & k & after & -> & Hno & Hk)].
    + apply (proj1 (headerValue_missing hs name)) in Hno.
      rewrite Hno. reflexivity.
    + rewrite (headerValue_skip before _ name Hno). cbn [headerValue].
      rewrite Hk, String.eqb_refl. reflexivity.
Qed.

Example headerValue_stored_null :
  headerValue [("Content-Type", VNull)] CONTENT_TYPE_HEADER = Some VNull
  /\ isNull (headerValue [("Content-Type", VNull)] CONTENT_TYPE_HEADER) = true.
Proof. split; reflexivity. Qed.

Lemma headerValue_case_insensitive_witness :
  Forall2 same_up_to_case
    [("Content-Type", VStr "text/plain")] [("CONTENT-TYPE", VStr "text/plain")]
  /\ headerValue [("Content-Type", VStr "text/plain")] CONTENT_TYPE_HEADER
     = headerValue [("CONTENT-TYPE", VStr "text/plain")] CONTENT_TYPE_HEADER.
Proof.
  assert (H : Forall2 same_up_to_case
                [("Content-Type", VStr "text/plain")]
                [("CONTENT-TYPE", VStr "text/plain")])
    by (repeat constructor).
  split; [exact H|].
  exact (headerValue_case_insensitive _ _ CONTENT_TYPE_HEADER H).
Defined.

Lemma headerValue_first_match_witness :
  headerValue [("Accept", VStr "*/*")] CONTENT_TYPE_HEADER = None
  /\ toLowerCase "Content-Type" = CONTENT_TYPE_HEADER
  /\ headerValue
       ([("Accept", VStr "*/*")]
        ++ ("Content-Type", VStr "text/xml")
           :: [("content-type", VStr "application/json")])
       CONTENT_TYPE_HEADER
     = Some (VStr "text/xml").
Proof.
  split; [reflexivity|]. split; [reflexivity|].
  apply (headerValue_first_match [("Accept", VStr "*/*")]
           [("content-type", VStr "application/json")]
           "Content-Type" CONTENT_TYPE_HEADER (VStr "text/xml"));
    reflexivity.
Defined.

Lemma headerValue_needs_lower_case_witness :
  toLowerCase "Content-Type" <> "Content-Type"
  /\ headerValue [("Content-Type", VStr "text/plain")] "Content-Type" = None.
Proof.
  assert (H : toLowerCase "Content-Type" <> "Content-Type")
    by (vm_compute; discriminate).
  split; [exact H|].
  exact (headerValue_needs_lower_case
           [("Content-Type", VStr "text/plain")] "Content-Type" H).
Defined.

(** ** [removeParams] and the first line of a text *)

Lemma indexOf_strip (s : string) :
  indexOf (strip_from_semicolon s) ";" = -1.
Proof.
  induction s as [|c s IH]; [reflexivity|].
  cbn [strip_from_semicolon].
  destruct (Ascii.eqb c ";") eqn:E; [reflexivity|].
  cbn [indexOf]. rewrite E, IH. reflexivity.
Qed.

(** X6: normalizing a content type twice gives what normalizing it once
    gives, for [null], the empty text and every other text. *)
Theorem removeParams_idempotent (value : option string) :
  removeParams (removeParams value) = removeParams value.
Proof.
  destruct value as [s|]; [|reflexivity].
  assert (H : removeParams (Some s) = Some s
              \/ removeParams (Some s) = Some (strip_from_semicolon s)).
  { unfold removeParams. destruct (truthy_string s); [|left; reflexivity].
    cbv zeta. destruct (indexOf s ";" >? 0) eqn:E; [|left; reflexivity].
    apply Z.gtb_lt in E. rewrite substring_to_semicolon by lia.
    right; reflexivity. }
  destruct H as [H|H]; rewrite H; [exact H|].
  unfold removeParams.
  destruct (truthy_string (strip_from_semicolon s)); [|reflexivity].
  cbv zeta. rewrite indexOf_strip. reflexivity.
Qed.

(** X7: the first line taken from [error_description] holds no line
    feed, is a prefix of the text, and is the whole text when the text
    holds no line feed. *)
Theorem first_line_spec (s : string) :
  indexOf (first_line s) "010" = -1
  /\ isPrefix (first_line s) s = true
  /\ (indexOf s "010" = -1 -> first_line s = s).
Proof.
  induction s as [|c s (IH1 & IH2 & IH3)]; [repeat split|].
  cbn [first_line].
  destruct (Ascii.eqb c "010") eqn:Ec.
  - repeat split. cbn [indexOf]. rewrite Ec. discriminate.
  - destruct (Ascii.eqb c "013" && isPrefix (String "010" EmptyString) s)
      eqn:Ecr.
    + repeat split. cbn [indexOf]. rewrite Ec.
      apply andb_prop in Ecr as [_ Hp].
      destruct s as [|d s]; [discriminate Hp|].
      cbn [isPrefix] in Hp. apply andb_prop in Hp as [Hd _].
      cbn [indexOf]. rewrite (Ascii.eqb_sym d "010"), Hd. discriminate.
    + split; [|split].
      * cbn [indexOf]. rewrite Ec, IH1. reflexivity.
      * cbn [isPrefix]. rewrite Ascii.eqb_refl. exact IH2.
      * cbn [indexOf]. rewrite Ec.
        pose proof (indexOf_lower_bound s "010").
        destruct (indexOf s "010" <? 0) eqn:E; [|lia].
        apply Z.ltb_lt in E. intros _. rewrite IH3 by lia. reflexivity.
Qed.

(** ** What [request] does to the store and to the transport *)

Section RequestFacts.
Context `{P : Platform}.

Lemma only_changes_refl (l : loc) (st : state) : only_changes l st st.
Proof. split; [reflexivity|auto]. Qed.

Lemma only_changes_trans (l : loc) (st1 st2 st3 : state) :
  only_changes l st1 st2 -> only_changes l st2 st3 -> only_changes l st1 st3.
Proof.
  intros [L1 H1] [L2 H2]. split; [congruence|].
  intros l' Hne. rewrite (H2 l' Hne). apply H1, Hne.
Qed.

Lemma only_changes_insert (l : loc) (st : state) (o : obj) (tr : list event) :
  only_changes l st {| heap := <[l := o]> (heap st); trace := tr |}.
Proof.
  split; cbn [heap]; [apply length_insert|].
  intros l' Hne. apply list_lookup_insert_ne. congruence.
Qed.

Lemma serialize_frame (l : loc) (data : value) (st st' : state)
    (r : result value) :
  serialize l data st = (r, st') ->
  only_changes l st st' /\ trace st' = trace st
  /\ match r with Ok d => isString d = true | Throw _ => True end.
Proof.
  unfold serialize, mbind, M_bind, mret, M_ret, read, assign, throw.
  destruct (headerValue (default [] (heap st !! l)) CONTENT_TYPE_HEADER)
    as [[| | | |t| | |]|];
    try (intros [= <- <-]; repeat split;
         first [apply only_changes_refl | apply only_changes_insert]).
  destruct (String.eqb t JSON_MEDIA_TYPE);
    [intros [= <- <-]; repeat split; apply only_changes_refl|].
  destruct (String.eqb t FORM_MEDIA_TYPE);
    intros [= <- <-]; repeat split; apply only_changes_refl.
Qed.

Lemma setContentLength_frame (l : loc) (d : value) (st : state) :
  exists st', setContentLength l d st = (Ok tt, st')
              /\ only_changes l st st' /\ trace st' = trace st.
Proof.
  unfold setContentLength, mbind, M_bind, mret, M_ret, read, assign.
  destruct d; try (eexists; repeat split; apply only_changes_refl).
  destruct (isNull _); eexists; repeat split;
    first [apply only_changes_refl | apply only_changes_insert].
Qed.

(** Everything [request] can do, for a headers object given by
    reference. *)
Lemma request_given_outcome (this : HttpService) (m : string)
    (path : option string) (l : loc) (data : value) (st st' : state)
    (r : result unit) :
  request this m path (Some l) data st = (r, st') ->
  only_changes l st st'
  /\ let call := ClientRequest (mergedOptions this (toUpperCase m) path l)
                               (default [] (heap st' !! l)) in
     match r with
     | Ok _ =>
         if notNull data then
           exists d,
             isString d || isBuffer d = true
             /\ (if isObject data && negb (isBuffer data)
                 then isString d = true else d = data)
             /\ trace st' = (trace st ++ [call; Write d; End])%list
         else trace st' = (trace st ++ [call; End])%list
     | Throw _ =>
         trace st' = trace st \/ trace st' = (trace st ++ [call])%list
     end.
Proof.
  unfold request. rewrite bind_run. cbn [mret M_ret].
  destruct (notNull data) eqn:Hn.
  - rewrite !bind_run.
    destruct ((if isObject data && negb (isBuffer data)
               then serialize l data else mret data) st)
      as [[d|e] st1] eqn:HX; cbv beta iota.
    + assert (H1 : only_changes l st st1 /\ trace st1 = trace st
                   /\ notNull d = true
                   /\ (if isObject data && negb (isBuffer data)
                       then isString d = true else d = data)).
      { destruct (isObject data && negb (isBuffer data)).
        - destruct (serialize_frame l data st st1 (Ok d) HX) as (F & T & S).
          split; [exact F|]. split; [exact T|]. split; [|exact S].
          destruct d; try discriminate S; reflexivity.
        - cbn [mret M_ret] in HX. injection HX as <- <-.
          split; [apply only_changes_refl|]. split; [reflexivity|].
          split; [exact Hn|reflexivity]. }
      destruct H1 as (F1 & T1 & Hd & Hser).
      rewrite bind_run.
      destruct (setContentLength_frame l d st1) as (st2 & -> & F2 & T2).
      cbn [mret M_ret]. rewrite send_run, Hd. cbv zeta.
      pose proof (only_changes_trans l st st1 st2 F1 F2) as F.
      destruct (isString d || isBuffer d) eqn:Hsb; intros [= <- <-];
        (split; [exact F|]);
        cbn [heap trace]; rewrite T2, T1.
      * exists d. split; [exact Hsb|]. split; [exact Hser|reflexivity].
      * right. reflexivity.
    + assert (H1 : only_changes l st st1 /\ trace st1 = trace st).
      { destruct (isObject data && negb (isBuffer data)).
        - destruct (serialize_frame l data st st1 (Throw e) HX) as (F & T & _).
          split; assumption.
        - cbn [mret M_ret] in HX. discriminate HX. }
      destruct H1 as (F1 & T1).
      intros [= <- <-]. split; [exact F1|]. left. exact T1.
  - destruct data; try discriminate Hn.
    rewrite bind_run. cbn [mret M_ret]. rewrite send_run. cbn [notNull].
    intros [= <- <-]. split; [exact (only_changes_refl l st)|].
    reflexivity.
Qed.

(** X8: when [request] returns, the transport has been called exactly
    once, with the method in upper case, the instance's protocol, host
    and port, the base path followed by the path, and the headers object
    as it is afterwards.  With [null] data nothing has been written
    before the request was ended; with any other data exactly one body
    has been written before it, which is the data itself when that is a
    string or a [Buffer], and a string when it is another object. *)
Theorem request_returns_shape (this : HttpService) (m : string)
    (path : option string) (headers : option loc) (data : value)
    (st st' : state) :
  request this m path headers data st = (Ok tt, st') ->
  exists l,
    (headers = Some l \/ (headers = None /\ l = length (heap st)))
    /\ let call := ClientRequest (mergedOptions this (toUpperCase m) path l)
                                 (default [] (heap st' !! l)) in
       if notNull data then
         exists d,
           isString d || isBuffer d = true
           /\ (if isObject data && negb (isBuffer data)
               then isString d = true else d = data)
           /\ trace st' = (trace st ++ [call; Write d; End])%list
       else trace st' = (trace st ++ [call; End])%list.
Proof.
  destruct headers as [l|]; intros H.
  - exists l. split; [left; reflexivity|].
    exact (proj2 (request_given_outcome this m path l data st st' _ H)).
  - exists (length (heap st)). split; [right; split; reflexivity|].
    destruct (request_resolved this m path None data st _ _
                (fresh_object st)) as (Hr & Ht).
    rewrite Hr in H.
    pose proof (proj2 (request_given_outcome this m path _ data _ st' _ H))
      as Hout.
    cbv zeta in Hout. cbn [trace] in Hout. exact Hout.
Qed.

(** X9: whatever [request] does, returning or throwing, every object
    that was in the store and is not the headers object of the call is
    left as it was. *)
Theorem request_frame (this : HttpService) (m : string)
    (path : option string) (headers : option loc) (data : value)
    (st st' : state) (r : result unit) (other : loc) :
  request this m path headers data st = (r, st') ->
  (other < length (heap st))%nat ->
  headers <> Some other ->
  heap st' !! other = heap st !! other.
Proof.
  intros H Hlt Hne. destruct headers as [l|].
  - destruct (request_given_outcome this m path l data st st' r H)
      as ([_ F] & _).
    apply F. congruence.
  - destruct (request_resolved this m path None data st _ _
                (fresh_object st)) as (Hr & _).
    rewrite Hr in H.
    destruct (request_given_outcome this m path _ data _ st' r H)
      as ([_ F] & _).
    rewrite F by lia. cbn [heap]. apply lookup_app_l, Hlt.
Qed.

(** X10: the method is not case sensitive: a method and its upper-case
    spelling make the same request. *)
Theorem request_method_case (this : HttpService) (m : string)
    (path : option string) (headers : option loc) (data : value)
    (st : state) :
  request this (toUpperCase m) path headers data st
  = request this m path headers data st.
Proof.
  unfold request. cbv zeta. rewrite toUpperCase_idempotent. reflexivity.
Qed.

(** X11: a request without data writes no body and leaves the headers
    object it was given, and so the whole store, as it was. *)
Theorem request_without_data (this : HttpService) (m : string)
    (path : option string) (l : loc) (st : state) :
  request this m path (Some l) VNull st
  = (Ok tt,
     {| heap := heap st;
        trace := trace st
                 ++ [ClientRequest (mergedOptions this (toUpperCase m) path l)
                                   (default [] (heap st !! l));
                     End] |}).
Proof.
  unfold request. rewrite bind_run. cbn [mret M_ret notNull].
  rewrite bind_run. cbn [mret M_ret]. rewrite send_run. reflexivity.
Qed.

(** X12: an object sent under a declared content type of JSON or form
    encoding is serialized by [JSON.stringify] or [querystring.stringify]
    respectively, and the declared content type stays as the caller wrote
    it. *)
Theorem declared_type_respected (this : HttpService) (m : string)
    (path : option string) (l : loc) (data : value) (st : state)
    (hs : obj) (t : string) :
  heap st !! l = Some hs ->
  isObject data && negb (isBuffer data) = true ->
  headerValue hs CONTENT_TYPE_HEADER = Some (VStr t) ->
  String.eqb t JSON_MEDIA_TYPE || String.eqb t FORM_MEDIA_TYPE = true ->
  let body := if String.eqb t JSON_MEDIA_TYPE then JSON_stringify data
              else querystring_stringify data in
  let sent := withContentLength hs (VStr body) in
  request this m path (Some l) data st
  = (Ok tt,
     {| heap := <[l := sent]> (heap st);
        trace := trace st
                 ++ [ClientRequest (mergedOptions this (toUpperCase m) path l)
                                   sent;
                     Write (VStr body); End] |})
  /\ headerValue sent CONTENT_TYPE_HEADER = Some (VStr t).
Proof.
  intros Hl Hobj Hct Ht body sent. split.
  - assert (Hn : notNull data = true)
      by (destruct data; try discriminate Hobj; reflexivity).
    rewrite (request_unfold this m path l data st Hn), Hobj.
    apply (after_serialize this (toUpperCase m) path l _ st st (VStr body) hs);
      [|exact Hl|reflexivity].
    rewrite (serialize_run l data st hs Hl), Hct. unfold body.
    destruct (String.eqb t JSON_MEDIA_TYPE); [reflexivity|].
    cbn [orb] in Ht. rewrite Ht. reflexivity.
  - unfold sent, withContentLength.
    destruct (isNull (headerValue hs CONTENT_LENGTH_HEADER)); [|exact Hct].
    rewrite headerValue_set_field_other by discriminate. exact Hct.
Qed.
End RequestFacts.

Lemma request_returns_shape_witness :
  let st := Sample.store [("Accept", VStr "*/*")] in
  let data := VStr "hello" in
  exists st',
    request (P := Node.platform) Sample.service "put" (Some "put")
      (Some 0%nat) data st = (Ok tt, st')
    /\ exists l,
        (Some 0%nat = Some l \/ (Some 0%nat = None /\ l = length (heap st)))
        /\ let call := ClientRequest
                         (mergedOptions Sample.service (toUpperCase "put")
                            (Some "put") l)
                         (default [] (heap st' !! l)) in
           if notNull data then
             exists d,
               isString d || isBuffer d = true
               /\ (if isObject data && negb (isBuffer data)
                   then isString d = true else d = data)
               /\ trace st' = (trace st ++ [call; Write d; End])%list
           else trace st' = (trace st ++ [call; End])%list.
Proof.
  eexists. split; [reflexivity|].
  apply (request_returns_shape (P := Node.platform) Sample.service "put"
           (Some "put") (Some 0%nat) (VStr "hello")
           (Sample.store [("Accept", VStr "*/*")])).
  reflexivity.
Defined.

Lemma request_frame_witness :
  let st := {| heap := [[("Accept", VStr "*/*")]; [("X-Other", VStr "1")]];
               trace := [] |} in
  exists r st',
    request (P := Node.platform) Sample.service "post" (Some "post")
      (Some 0%nat) (VObj [("a", VNum 1)]) st = (r, st')
    /\ (1 < length (heap st))%nat
    /\ Some 0%nat <> Some 1%nat
    /\ heap st' !! 1%nat = heap st !! 1%nat.
Proof.
  do 2 eexists. split; [reflexivity|].
  assert (Hlt : (1 < 2)%nat) by lia.
  assert (Hne : Some 0%nat <> Some 1%nat) by discriminate.
  split; [exact Hlt|]. split; [exact Hne|].
  exact (request_frame (P := Node.platform) Sample.service "post"
           (Some "post") (Some 0%nat) (VObj [("a", VNum 1)])
           {| heap := [[("Accept", VStr "*/*")]; [("X-Other", VStr "1")]];
              trace := [] |} _ _ 1%nat eq_refl Hlt Hne).
Defined.

Lemma declared_type_respected_witness :
  let hs : obj := [("Content-Type", VStr FORM_MEDIA_TYPE)] in
  let data := VObj [("a", VNum 1); ("b", VStr "x y")] in
  heap (Sample.store hs) !! 0%nat = Some hs
  /\ isObject data && negb (isBuffer data) = true
  /\ headerValue hs CONTENT_TYPE_HEADER = Some (VStr FORM_MEDIA_TYPE)
  /\ String.eqb FORM_MEDIA_TYPE JSON_MEDIA_TYPE
     || String.eqb FORM_MEDIA_TYPE FORM_MEDIA_TYPE = true
  /\ request (P := Node.platform) Sample.service "post" (Some "post")
       (Some 0%nat) data (Sample.store hs)
     = (Ok tt,
        {| heap := [[("Content-Type", VStr FORM_MEDIA_TYPE);
                     ("content-length", VNum 11)]];
           trace := [ClientRequest (Sample.options "POST" "post" 0%nat)
                       [("Content-Type", VStr FORM_MEDIA_TYPE);
                        ("content-length", VNum 11)];
                     Write (VStr "a=1&b=x%20y"); End] |}).
Proof.
  repeat (split; [reflexivity|]).
  exact (proj1 (declared_type_respected (P := Node.platform) Sample.service
                  "post" (Some "post") 0%nat
                  (VObj [("a", VNum 1); ("b", VStr "x y")])
                  (Sample.store [("Content-Type", VStr FORM_MEDIA_TYPE)])
                  [("Content-Type", VStr FORM_MEDIA_TYPE)] FORM_MEDIA_TYPE
                  eq_refl eq_refl eq_refl eq_refl)).
Defined.

(** ** The convenience methods *)

Section ConvenienceFacts.
Context `{P : Platform}.

Lemma request_fresh (this : HttpService) (m : string) (path : option string)
    (data : value) (st : state) :
  request this m path None data st
  = request this m path (Some (length (heap st))) data
      {| heap := heap st ++ [[]]; trace := trace st |}.
Proof. reflexivity. Qed.

Lemma insert_fresh (h : list obj) (o o' : obj) :
  <[length h := o']> (h ++ [o])%list = (h ++ [o'])%list.
Proof.
  rewrite insert_app_r_alt by reflexivity.
  rewrite Nat.sub_diag. reflexivity.
Qed.

(** X13: [get], [head] and [delete] never fail; each makes one bodyless
    request with its own method in upper case, the path with the query
    appended, and a new empty headers object, and leaves the objects
    already in the store as they were. *)
Theorem bodyless_methods (this : HttpService) (path : string)
    (query : option value) (st : state) :
  let sent (method p : string) : result unit * state :=
    (Ok tt,
     {| heap := heap st ++ [[]];
        trace := trace st
                 ++ [ClientRequest
                       (mergedOptions this method (Some p) (length (heap st)))
                       [];
                     End] |}) in
  Convenience.get this path query st = sent "GET" (queried path query)
  /\ Convenience.head this path query st = sent "HEAD" (queried path query)
  /\ Convenience.delete this path st = sent "DELETE" path.
Proof.
  cbv zeta. unfold Convenience.get, Convenience.head, Convenience.delete.
  fold (queried path query).
  rewrite !request_fresh, !request_without_data. cbn [heap trace].
  rewrite lookup_fresh. repeat split.
Qed.

(** X14: [post], [put] and [patch] of an object that is not a [Buffer]
    never fail: each writes the JSON text of the object, under a new
    headers object that holds [content-type: application/json] and the
    byte length of that text as [content-length]. *)
Theorem body_methods_send_json (this : HttpService) (path : string)
    (data : value) (st : state) :
  isObject data && negb (isBuffer data) = true ->
  let text := JSON_stringify data in
  let headers : obj :=
    [(CONTENT_TYPE_HEADER, VStr JSON_MEDIA_TYPE);
     (CONTENT_LENGTH_HEADER, VNum (Buffer_byteLength text))] in
  let sent (method : string) : result unit * state :=
    (Ok tt,
     {| heap := heap st ++ [headers];
        trace := trace st
                 ++ [ClientRequest
                       (mergedOptions this method (Some path)
                          (length (heap st)))
                       headers;
                     Write (VStr text); End] |}) in
  Convenience.post this path data st = sent "POST"
  /\ Convenience.put this path data st = sent "PUT"
  /\ Convenience.patch this path data st = sent "PATCH".
Proof.
  intros Hobj text headers sent.
  assert (Hn : notNull data = true)
    by (destruct data; try discriminate Hobj; reflexivity).
  assert (Hall : forall m,
             request this m (Some path) None data st
             = (Ok tt,
                {| heap := heap st ++ [headers];
                   trace := trace st
                            ++ [ClientRequest
                                  (mergedOptions this (toUpperCase m)
                                     (Some path) (length (heap st)))
                                  headers;
                                Write (VStr text); End] |})).
  { intros m. rewrite request_fresh.
    set (st0 := {| heap := heap st ++ [[]]; trace := trace st |}).
    set (l := length (heap st)).
    assert (Hl : heap st0 !! l = Some []).
    { unfold st0, l. cbn [heap]. rewrite lookup_app_r by reflexivity.
      rewrite Nat.sub_diag. reflexivity. }
    rewrite (request_unfold this m (Some path) l data st0 Hn), Hobj.
    rewrite (after_serialize this (toUpperCase m) (Some path) l _ st0
               {| heap := <[l := [(CONTENT_TYPE_HEADER, VStr JSON_MEDIA_TYPE)]]>
                            (heap st0);
                  trace := trace st0 |}
               (VStr text) [(CONTENT_TYPE_HEADER, VStr JSON_MEDIA_TYPE)]).
    - cbn [heap trace]. rewrite list_insert_insert_eq.
      unfold st0, l. cbn [heap trace]. rewrite insert_fresh. reflexivity.
    - rewrite (serialize_run l data st0 [] Hl). reflexivity.
    - cbn [heap]. apply list_lookup_insert_eq. eapply lookup_lt_Some, Hl.
    - reflexivity. }
  unfold Convenience.post, Convenience.put, Convenience.patch, sent.
  rewrite !Hall. repeat split.
Qed.
End ConvenienceFacts.

Lemma body_methods_send_json_witness :
  let data := VObj [("a", VNum 1)] in
  isObject data && negb (isBuffer data) = true
  /\ Convenience.put (P := Node.platform) Sample.service "put" data
       {| heap := []; trace := [] |}
     = (Ok tt,
        {| heap := [[("content-type", VStr "application/json");
                     ("content-length", VNum 7)]];
           trace := [ClientRequest (Sample.options "PUT" "put" 0%nat)
                       [("content-type", VStr "application/json");
                        ("content-length", VNum 7)];
                     Write (VStr (Sample.json "{'a':1}")); End] |}).
Proof.
  split; [reflexivity|].
  exact (proj1 (proj2 (body_methods_send_json (P := Node.platform)
                         Sample.service "put" (VObj [("a", VNum 1)])
                         {| heap := []; trace := [] |} eq_refl))).
Defined.

(** ** Responses in the second draft *)

Section ResponseFacts.
Context `{P : Platform}.
Import OutcomeObj.

(** X15: a response that does not declare JSON, and that is not a
    no-content response declaring a text type, always has its body
    resolved: decoded text for [text/...] and [...+xml], [null] for a
    no-content status, the buffered bytes in arrival order otherwise.
    The error slot holds what [status.error] makes of the bare target
    exactly when the status is an error. *)
Theorem resolved_without_json (options : RequestOptions.t) (statusCode : Z)
    (headers : response_headers) (chunks : list (list byte)) :
  let type := removeParams (headerValue headers CONTENT_TYPE_HEADER) in
  declaresJSON type = false ->
  status_noContent statusCode && declaresText type = false ->
  on_end options statusCode headers chunks
  = Callback
      (if status_isError statusCode
       then Some (status_error statusCode (target options)) else None)
      (Some {| status := statusCode; headers := headers; type := type;
               body := if declaresText type
                       then VStr (Buffer_toString (concat chunks))
                       else if status_noContent statusCode then VNull
                            else VBuf (concat chunks) |}).
Proof.
  intros type Hj Ht. unfold on_end. fold type.
  unfold parseBody, parseError.
  destruct type as [t|]; cbn [declaresJSON declaresText] in *.
  - rewrite Hj. cbn [negb]. fold (textual t).
    destruct (textual t).
    + rewrite andb_true_r in Ht. rewrite Ht. cbn [toString rbind to_string].
      destruct (status_isError statusCode); reflexivity.
    + destruct (status_isError statusCode); reflexivity.
  - destruct (status_isError statusCode); reflexivity.
Qed.

(** X16: with a status that is neither no-content nor an error, a JSON
    body that parses is handed over as parsed, with a null error, whatever
    fields it has: the error shapes are looked for only under an error
    status. *)
Theorem parsed_json_delivered (options : RequestOptions.t) (statusCode : Z)
    (headers : response_headers) (chunks : list (list byte)) (parsed : value) :
  removeParams (headerValue headers CONTENT_TYPE_HEADER)
  = Some JSON_MEDIA_TYPE ->
  status_noContent statusCode = false ->
  status_isError statusCode = false ->
  JSON_parse (Buffer_toString (concat chunks)) = inr parsed ->
  on_end options statusCode headers chunks
  = Callback None
      (Some {| status := statusCode; headers := headers;
               type := Some JSON_MEDIA_TYPE; body := parsed |}).
Proof.
  intros Htype Hnc Herr Hparse. unfold on_end.
  rewrite Htype, Hnc, Herr. unfold parseBody. rewrite String.eqb_refl.
  cbn [toString to_string rbind]. unfold parseJSON. rewrite Hparse.
  reflexivity.
Qed.

(** X17: under an error status, a JSON object without
    [error_description], [error] and [odata.error] gives what
    [status.error] makes of the bare target, next to the parsed body. *)
Theorem json_error_without_shape (options : RequestOptions.t) (statusCode : Z)
    (headers : response_headers) (chunks : list (list byte))
    (fields : list (string * value)) :
  removeParams (headerValue headers CONTENT_TYPE_HEADER)
  = Some JSON_MEDIA_TYPE ->
  status_noContent statusCode = false ->
  status_isError statusCode = true ->
  JSON_parse (Buffer_toString (concat chunks)) = inr (VObj fields) ->
  truthy (lookup_field fields "error_description") = false ->
  truthy (lookup_field fields "error") = false ->
  truthy (lookup_field fields "odata.error") = false ->
  on_end options statusCode headers chunks
  = Callback (Some (status_error statusCode (target options)))
      (Some {| status := statusCode; headers := headers;
               type := Some JSON_MEDIA_TYPE; body := VObj fields |}).
Proof.
  intros Htype Hnc Herr Hparse Hd He Ho. unfold on_end.
  rewrite Htype, Hnc, Herr. unfold parseBody. rewrite String.eqb_refl.
  cbn [toString to_string rbind]. unfold parseJSON. rewrite Hparse.
  unfold parseError. rewrite String.eqb_refl. cbn [negb getProp rbind].
  rewrite Hd. unfold andProp. rewrite He. cbn [rbind]. rewrite He, Ho.
  cbn [rbind]. rewrite Ho. reflexivity.
Qed.

(** X18: every error that the ['end'] handler hands over is made from a
    message that begins with the bracketed target of the request: it is
    an [Error] with that message, or what [status.error] makes of that
    message. *)
Theorem error_names_request (options : RequestOptions.t) (statusCode : Z)
    (headers : response_headers) (chunks : list (list byte))
    (e : error) (r : option Response) :
  on_end options statusCode headers chunks = Callback (Some e) r ->
  exists msg,
    isPrefix (target options) msg = true
    /\ (e = Error msg \/ e = status_error statusCode msg).
Proof.
  assert (Hm : forall txt, isPrefix (target options) (makeMessage options txt)
                           = true).
  { intros [t|]; unfold makeMessage; [|apply isPrefix_refl].
    destruct (truthy_string t); [apply isPrefix_app|apply isPrefix_refl]. }
  unfold on_end.
  destruct (parseBody _ _) as [parsed|e0].
  - destruct (status_isError statusCode); [|discriminate].
    destruct (parseError _ parsed) as [txt|e1]; intros [= <- _].
    + exists (makeMessage options txt). split; [apply Hm|right; reflexivity].
    + exists (makeMessage options (Some ("Parse Error: " ++ message e1))).
      split; [apply Hm|left; reflexivity].
  - intros [= <- _].
    exists (makeMessage options (Some ("Parse Error: " ++ message e0))).
    split; [apply Hm|left; reflexivity].
Qed.
End ResponseFacts.

Lemma resolved_without_json_witness :
  let headers : response_headers := [("content-type", "image/svg+xml")] in
  declaresJSON (removeParams (headerValue headers CONTENT_TYPE_HEADER)) = false
  /\ @status_noContent Node.platform 404
     && declaresText (removeParams (headerValue headers CONTENT_TYPE_HEADER))
     = false
  /\ OutcomeObj.on_end (P := Node.platform) (Sample.options "GET" "logo" 0%nat)
       404 headers [Sample.bytes "<sv"; Sample.bytes "g/>"]
     = OutcomeObj.Callback
         (Some (HttpError 404 "[GET http://httpbin.org:80/logo]"))
         (Some {| OutcomeObj.status := 404;
                  OutcomeObj.headers := headers;
                  OutcomeObj.type := Some "image/svg+xml";
                  OutcomeObj.body := VStr "<svg/>" |}).
Proof.
  split; [reflexivity|]. split; [reflexivity|].
  exact (resolved_without_json (P := Node.platform)
           (Sample.options "GET" "logo" 0%nat) 404
           [("content-type", "image/svg+xml")]
           [Sample.bytes "<sv"; Sample.bytes "g/>"] eq_refl eq_refl).
Defined.

Lemma parsed_json_delivered_witness :
  removeParams (headerValue Sample.json_type CONTENT_TYPE_HEADER)
  = Some JSON_MEDIA_TYPE
  /\ @status_noContent Node.platform 200 = false
  /\ @status_isError Node.platform 200 = false
  /\ @JSON_parse Node.platform
       (@Buffer_toString Node.platform (concat [Sample.bytes Sample.bad_token]))
     = inr (VObj [("error", VObj [("message", VStr "bad token")])])
  /\ OutcomeObj.on_end (P := Node.platform) (Sample.options "GET" "me" 0%nat)
       200 Sample.json_type [Sample.bytes Sample.bad_token]
     = OutcomeObj.Callback None
         (Some {| OutcomeObj.status := 200;
                  OutcomeObj.headers := Sample.json_type;
                  OutcomeObj.type := Some JSON_MEDIA_TYPE;
                  OutcomeObj.body :=
                    VObj [("error", VObj [("message", VStr "bad token")])] |}).
Proof.
  repeat (split; [reflexivity|]).
  exact (parsed_json_delivered (P := Node.platform)
           (Sample.options "GET" "me" 0%nat) 200 Sample.json_type
           [Sample.bytes Sample.bad_token]
           (VObj [("error", VObj [("message", VStr "bad token")])])
           eq_refl eq_refl eq_refl eq_refl).
Defined.

Lemma json_error_without_shape_witness :
  let chunks := [Sample.bytes (Sample.json "{'detail':'gone'}")] in
  let fields := [("detail", VStr "gone")] in
  removeParams (headerValue Sample.json_type CONTENT_TYPE_HEADER)
  = Some JSON_MEDIA_TYPE
  /\ @status_noContent Node.platform 410 = false
  /\ @status_isError Node.platform 410 = true
  /\ @JSON_parse Node.platform (@Buffer_toString Node.platform (concat chunks))
     = inr (VObj fields)
  /\ truthy (lookup_field fields "error_description") = false
  /\ truthy (lookup_field fields "error") = false
  /\ truthy (lookup_field fields "odata.error") = false
  /\ OutcomeObj.on_end (P := Node.platform) (Sample.options "GET" "old" 0%nat)
       410 Sample.json_type chunks
     = OutcomeObj.Callback
         (Some (HttpError 410 (target (Sample.options "GET" "old" 0%nat))))
         (Some {| OutcomeObj.status := 410;
                  OutcomeObj.headers := Sample.json_type;
                  OutcomeObj.type := Some JSON_MEDIA_TYPE;
                  OutcomeObj.body := VObj fields |}).
Proof.
  repeat (split; [reflexivity|]).
  exact (json_error_without_shape (P := Node.platform)
           (Sample.options "GET" "old" 0%nat) 410 Sample.json_type
           [Sample.bytes (Sample.json "{'detail':'gone'}")]
           [("detail", VStr "gone")]
           eq_refl eq_refl eq_refl eq_refl eq_refl eq_refl eq_refl).
Defined.

Lemma error_names_request_witness :
  OutcomeObj.on_end (P := Node.platform) (Sample.options "GET" "get" 0%nat)
    200 Sample.json_type [Sample.bytes "{"]
  = OutcomeObj.Callback
      (Some (Error "[GET http://httpbin.org:80/get] Parse Error: Unexpected token in JSON"))
      (Some {| OutcomeObj.status := 200;
               OutcomeObj.headers := Sample.json_type;
               OutcomeObj.type := Some JSON_MEDIA_TYPE;
               OutcomeObj.body := VBuf (Sample.bytes "{") |})
  /\ exists msg,
      isPrefix (target (Sample.options "GET" "get" 0%nat)) msg = true
      /\ (Error "[GET http://httpbin.org:80/get] Parse Error: Unexpected token in JSON"
          = Error msg
          \/ Error "[GET http://httpbin.org:80/get] Parse Error: Unexpected token in JSON"
             = @status_error Node.platform 200 msg).
Proof.
  split; [reflexivity|].
  exact (error_names_request (P := Node.platform)
           (Sample.options "GET" "get" 0%nat) 200 Sample.json_type
           [Sample.bytes "{"] _ _ eq_refl).
Defined.

(** ** Responses in the first draft *)

Section FirstDraftFacts.
Context `{P : Platform}.
Import FourArg.

Lemma errorShapes_error (code : Z) (options : RequestOptions.t)
    (body : value) (err : error) :
  errorShapes code options body = Ok (inl err) ->
  exists m, err = httpError code options m.
Proof.
  unfold errorShapes.
  destruct (getProp body "error_description") as [d|e]; [|discriminate].
  cbn [rbind]. destruct (truthy d).
  { destruct d; try discriminate. intros [= <-]. eexists; reflexivity. }
  destruct (getProp body "error") as [e1|e]; [|discriminate].
  cbn [rbind]. destruct (andProp e1 "message") as [m1|e]; [|discriminate].
  cbn [rbind]. destruct (truthy m1).
  { intros [= <-]. eexists; reflexivity. }
  destruct (getProp body "odata.error") as [e2|e]; [|discriminate].
  cbn [rbind]. destruct (andProp e2 "message") as [m2|e]; [|discriminate].
  cbn [rbind]. destruct (truthy m2); [|discriminate].
  destruct (getProp m2 "value") as [v|e]; [|discriminate].
  cbn [rbind]. intros [= <-]. eexists; reflexivity.
Qed.

(** What the ['end'] handler resolves before it looks at the status:
    [inl] an error to hand over, [inr] the body. *)
Lemma on_end_cases (options : RequestOptions.t) (statusCode : Z)
    (headers : response_headers) (chunks : list (list byte))
    (c : callback_call) :
  on_end options statusCode headers chunks = Ok c ->
  (statusCode = 204 /\ c = Success VNull None headers)
  \/ (statusCode <> 204
      /\ ((exists code m, c = Failure (httpError code options m))
          \/ (exists body,
                 ((statusCode =? 200) || (statusCode =? 201) = true)
                 /\ c = Success body
                          (removeParams
                             (headerValue headers CONTENT_TYPE_HEADER))
                          headers))).
Proof.
  unfold on_end. destruct (statusCode =? 204) eqn:E204.
  - intros [= <-]. left. split; [apply Z.eqb_eq, E204|reflexivity].
  - apply Z.eqb_neq in E204. intros H. right. split; [exact E204|].
    cbv zeta in H.
    match type of H with
    | rbind ?R _ = _ => destruct R as [[err|body]|e] eqn:HR
    end; cbn [rbind] in H; [| |discriminate H].
    + injection H as <-. left.
      destruct (String.eqb (RequestOptions.method options) "HEAD");
        [discriminate HR|].
      destruct (removeParams (headerValue headers CONTENT_TYPE_HEADER))
        as [t|]; [|discriminate HR].
      destruct (String.eqb t "application/json"); cycle 1.
      { destruct (startsWith t "text/" || endsWith t "+xml");
          discriminate HR. }
      destruct (negb (truthy_string (Buffer_toString (concat chunks)))).
      { injection HR as <-. do 2 eexists; reflexivity. }
      destruct (JSON_parse (Buffer_toString (concat chunks))) as [m|parsed].
      { injection HR as <-. do 2 eexists; reflexivity. }
      destruct (errorShapes_error _ _ _ _ HR) as (m & ->).
      do 2 eexists; reflexivity.
    + destruct ((statusCode =? 200) || (statusCode =? 201)) eqn:Hok;
        cbn [negb] in H; injection H as <-.
      * right. exists body. split; reflexivity.
      * left. do 2 eexists; reflexivity.
Qed.

(** X19: the callback is told of a success only for the status codes
    200, 201 and 204.  For every other status, 2xx and 3xx included, the
    handler either hands over a failure or throws, in which case the
    callback is not invoked; it hands over the failure of the status
    whenever the method is HEAD or the response has a type other than
    JSON. *)
Theorem success_statuses (options : RequestOptions.t) (statusCode : Z)
    (headers : response_headers) (chunks : list (list byte)) :
  (forall body type hs,
      on_end options statusCode headers chunks = Ok (Success body type hs) ->
      statusCode = 200 \/ statusCode = 201 \/ statusCode = 204)
  /\ (statusCode <> 200 -> statusCode <> 201 -> statusCode <> 204 ->
      (exists code m,
          on_end options statusCode headers chunks
          = Ok (Failure (httpError code options m)))
      \/ (exists e, on_end options statusCode headers chunks = Throw e))
  /\ (statusCode <> 200 -> statusCode <> 201 -> statusCode <> 204 ->
      RequestOptions.method options = "HEAD"
      \/ (exists t,
             removeParams (headerValue headers CONTENT_TYPE_HEADER) = Some t
             /\ String.eqb t JSON_MEDIA_TYPE = false) ->
      on_end options statusCode headers chunks
      = Ok (Failure
              (httpError statusCode options
                 (VStr "The request was not successfully completed.")))).
Proof.
  assert (Hsucc : forall body type hs,
             on_end options statusCode headers chunks
             = Ok (Success body type hs) ->
             statusCode = 200 \/ statusCode = 201 \/ statusCode = 204).
  { intros body type hs H. destruct (on_end_cases _ _ _ _ _ H)
      as [(E & _)|(_ & [(code & m & Hc)|(b & Hok & _)])].
    - auto.
    - discriminate Hc.
    - apply orb_prop in Hok as [Hok|Hok]; apply Z.eqb_eq in Hok; auto. }
  split; [exact Hsucc|]. split.
  - intros H200 H201 H204.
    destruct (on_end options statusCode headers chunks) as [c|e] eqn:H;
      [|right; exists e; reflexivity].
    left. destruct c as [err|body type hs].
    + destruct (on_end_cases _ _ _ _ _ H)
        as [(_ & Hc)|(_ & [(code & m & Hc)|(b & _ & Hc)])];
        try discriminate Hc.
      injection Hc as ->. exists code, m. reflexivity.
    + destruct (Hsucc body type hs eq_refl) as [E|[E|E]]; contradiction.
  - intros H200 H201 H204 Hcase. unfold on_end.
    apply Z.eqb_neq in H200. apply Z.eqb_neq in H201. apply Z.eqb_neq in H204.
    rewrite H204. cbv zeta.
    destruct (String.eqb (RequestOptions.method options) "HEAD") eqn:Hm.
    + cbn [rbind]. rewrite H200, H201. reflexivity.
    + destruct Hcase as [Hhead|(t & Ht & Hj)].
      * rewrite Hhead in Hm. discriminate Hm.
      * rewrite Ht. change "application/json" with JSON_MEDIA_TYPE.
        rewrite Hj.
        destruct (startsWith t "text/" || endsWith t "+xml");
          cbn [rbind]; rewrite H200, H201; reflexivity.
Qed.

(** X20: every failure the ['end'] handler hands over is an [HttpError]
    whose message begins with the bracketed target of the request and a
    space. *)
Theorem failure_names_request (options : RequestOptions.t) (statusCode : Z)
    (headers : response_headers) (chunks : list (list byte)) (err : error) :
  on_end options statusCode headers chunks = Ok (Failure err) ->
  exists code, err = HttpError code (message err)
  /\ isPrefix (target options ++ " ") (message err) = true.
Proof.
  intros H. destruct (on_end_cases _ _ _ _ _ H)
    as [(_ & Hc)|(_ & [(code & m & Hc)|(b & _ & Hc)])];
    try discriminate Hc.
  injection Hc as ->. exists code. split; [reflexivity|].
  unfold httpError. cbn [message].
  assert (Hassoc : forall a b c : string, a ++ b ++ c = (a ++ b) ++ c)
    by (intros a b c; induction a as [|x a IH]; [reflexivity|];
        cbn; f_equal; exact IH).
  rewrite Hassoc. apply isPrefix_app.
Qed.

(** X21: a response without a content type, to a method other than HEAD
    and with a status other than 204, makes the handler throw: the
    callback is never invoked for it. *)
Theorem missing_type_throws (options : RequestOptions.t) (statusCode : Z)
    (headers : response_headers) (chunks : list (list byte)) :
  headerValue headers CONTENT_TYPE_HEADER = None ->
  statusCode <> 204 ->
  RequestOptions.method options <> "HEAD" ->
  exists e, on_end options statusCode headers chunks = Throw e.
Proof.
  intros Hnone Hs Hm. unfold on_end.
  apply Z.eqb_neq in Hs. apply String.eqb_neq in Hm.
  rewrite Hs, Hm, Hnone. eexists; reflexivity.
Qed.

End FirstDraftFacts.

Lemma success_statuses_witness :
  let options := Sample.options "POST" "jobs" 0%nat in
  let headers : response_headers := [("content-type", "text/plain")] in
  202 <> 200 /\ 202 <> 201 /\ 202 <> 204
  /\ (RequestOptions.method options = "HEAD"
      \/ exists t,
           removeParams (headerValue headers CONTENT_TYPE_HEADER) = Some t
           /\ String.eqb t JSON_MEDIA_TYPE = false)
  /\ FourArg.on_end (P := Node.platform) options 202 headers
       [Sample.bytes "queued"]
     = Ok (FourArg.Failure
             (FourArg.httpError (P := Node.platform) 202 options
                (VStr "The request was not successfully completed."))).
Proof.
  assert (H200 : 202 <> 200) by lia.
  assert (H201 : 202 <> 201) by lia.
  assert (H204 : 202 <> 204) by lia.
  assert (Hcase : RequestOptions.method (Sample.options "POST" "jobs" 0%nat)
                  = "HEAD"
                  \/ exists t,
                       removeParams
                         (headerValue
                            ([("content-type", "text/plain")]
                             : response_headers) CONTENT_TYPE_HEADER)
                       = Some t
                       /\ String.eqb t JSON_MEDIA_TYPE = false)
    by (right; exists "text/plain"; split; reflexivity).
  split; [exact H200|]. split; [exact H201|]. split; [exact H204|].
  split; [exact Hcase|].
  exact (proj2 (proj2 (success_statuses (P := Node.platform)
                         (Sample.options "POST" "jobs" 0%nat) 202
                         [("content-type", "text/plain")]
                         [Sample.bytes "queued"]))
           H200 H201 H204 Hcase).
Defined.

Lemma failure_names_request_witness :
  let err :=
    HttpError 202
      "[POST http://httpbin.org:80/jobs] The request was not successfully completed." in
  FourArg.on_end (P := Node.platform) (Sample.options "POST" "jobs" 0%nat)
    202 [("content-type", "text/plain")] [Sample.bytes "queued"]
  = Ok (FourArg.Failure err)
  /\ exists code,
      err = HttpError code (message err)
      /\ isPrefix (target (Sample.options "POST" "jobs" 0%nat) ++ " ")
           (message err) = true.
Proof.
  split; [reflexivity|].
  exact (failure_names_request (P := Node.platform)
           (Sample.options "POST" "jobs" 0%nat) 202
           [("content-type", "text/plain")] [Sample.bytes "queued"]
           _ eq_refl).
Defined.

Lemma missing_type_throws_witness :
  headerValue ([("date", "today")] : response_headers) CONTENT_TYPE_HEADER
  = None
  /\ 200 <> 204
  /\ RequestOptions.method (Sample.options "GET" "get" 0%nat) <> "HEAD"
  /\ exists e,
      FourArg.on_end (P := Node.platform) (Sample.options "GET" "get" 0%nat)
        200 [("date", "today")] [Sample.bytes "hello"]
      = Throw e.
Proof.
  assert (H1 : 200 <> 204) by lia.
  assert (H2 : RequestOptions.method (Sample.options "GET" "get" 0%nat)
               <> "HEAD") by discriminate.
  split; [reflexivity|]. split; [exact H1|]. split; [exact H2|].
  exact (missing_type_throws (P := Node.platform)
           (Sample.options "GET" "get" 0%nat) 200 [("date", "today")]
           [Sample.bytes "hello"] eq_refl H1 H2).
Defined.


(** ** The port of an instance *)

(** X23: an instance that has been constructed has a positive port,
    whether the URI gives a port, gives port zero or gives none. *)
Theorem constructor_port_positive `{P : Platform} (uri : string)
    (opts : option obj) (s : HttpService) :
  match Url.port (url_parse uri) with
  | Some p => isDigits p = true
  | None => True
  end ->
  constructor uri opts = Ok s ->
  0 < port s.
Proof.
  intros Hp. unfold constructor.
  destruct (negb _); [discriminate|]. intros [= <-]. cbn [port].
  assert (Hpre : 0 < (if String.eqb (default EmptyString
                                       (Url.protocol (url_parse uri)))
                                    "http:" then 80 else 443))
    by (destruct (String.eqb _ "http:"); lia).
  destruct (Url.port (url_parse uri)) as [p|]; [|exact Hpre].
  rewrite (parseInt_digits p Hp).
  destruct (toDouble (decimal p) =? 0) eqn:E; [exact Hpre|].
  apply Z.eqb_neq in E.
  assert (0 <= toDouble (decimal p)).
  { apply toDouble_nonneg. unfold decimal. apply decimal_from_nonneg; [lia|].
    unfold isDigits in Hp. apply andb_prop in Hp as [_ Hp]. exact Hp. }
  lia.
Qed.

Lemma constructor_port_positive_witness :
  match Url.port (@url_parse Node.platform "http://example.com:0/api") with
  | Some p => isDigits p = true
  | None => True
  end
  /\ constructor (P := Node.platform) "http://example.com:0/api" None
     = Ok {| protocol := "http:"; hostname := "example.com";
             pathname := "/api"; port := 80; options := [] |}
  /\ 0 < 80.
Proof.
  split; [reflexivity|]. split; [reflexivity|].
  exact (constructor_port_positive (P := Node.platform)
           "http://example.com:0/api" None
           {| protocol := "http:"; hostname := "example.com";
              pathname := "/api"; port := 80; options := [] |}
           eq_refl eq_refl).
Defined.

Lemma head_body_absent_witness :
  RequestOptions.method (Sample.options "HEAD" "get" 0%nat) = "HEAD"
  /\ 404 <> 204
  /\ FourArg.on_end (P := Node.platform) (Sample.options "HEAD" "get" 0%nat)
       404 Sample.json_type [Sample.bytes "{"]
     = Ok (FourArg.Failure
             (HttpError 404
                "[HEAD http://httpbin.org:80/get] The request was not successfully completed.")).
Proof.
  assert (H : 404 <> 204) by lia.
  split; [reflexivity|]. split; [exact H|].
  exact (head_body_absent (P := Node.platform)
           (Sample.options "HEAD" "get" 0%nat) 404 Sample.json_type
           [Sample.bytes "{"] eq_refl H).
Defined.

Lemma parse_failure_is_502_witness :
  500 <> 204
  /\ RequestOptions.method (Sample.options "GET" "get" 0%nat) <> "HEAD"
  /\ removeParams (headerValue Sample.json_type CONTENT_TYPE_HEADER)
     = Some JSON_MEDIA_TYPE
  /\ @JSON_parse Node.platform
       (@Buffer_toString Node.platform (concat [Sample.bytes "<html>"]))
     = inl "Unexpected token in JSON"
  /\ exists text,
      FourArg.on_end (P := Node.platform) (Sample.options "GET" "get" 0%nat)
        500 Sample.json_type [Sample.bytes "<html>"]
      = Ok (FourArg.Failure
              (HttpError 502
                 (target (Sample.options "GET" "get" 0%nat) ++ " " ++ text))).
Proof.
  assert (H1 : 500 <> 204) by lia.
  assert (H2 : RequestOptions.method (Sample.options "GET" "get" 0%nat)
               <> "HEAD") by discriminate.
  split; [exact H1|]. split; [exact H2|].
  split; [reflexivity|]. split; [reflexivity|].
  exact (parse_failure_is_502 (P := Node.platform)
           (Sample.options "GET" "get" 0%nat) 500 Sample.json_type
           [Sample.bytes "<html>"] "Unexpected token in JSON"
           H1 H2 eq_refl eq_refl).
Defined.
